(** * Quote extraction and price analysis: a shallow embedding

    The development follows the Python sources of the [quotes] application:

    - [quotes/services/gpt_extractor/extractor.py]  (module [Extractor]),
    - [quotes/models.py]                            (module [Models]),
    - [quotes/services/price_analyzer/analyzer.py]  (module [Analyzer]),
    - [quotes/services/report_generator/generator.py] (module [Generator]),
    - [quotes/views.py], the download view          (module [Views]).

    Python values are modelled as the code has them: a [str] is a sequence of
    Unicode code points, a [float] is an IEEE 754 binary64 number, a database
    table keyed by its primary key is a finite map, an exception is a value
    of the error side of a result type. *)

From Stdlib Require Import ZArith NArith List String Ascii Bool Lia Floats.
From stdpp Require Import base option list gmap sorting.
Import ListNotations.

Local Open Scope Z_scope.

(** ** Python strings *)

Module PyStr.

(** A Python [str]: its code points, in order. *)
Definition pystr : Type := list N.

(** A literal of the source (ASCII text) as a Python string. *)
Definition py (s : string) : pystr :=
  List.map N_of_ascii (list_ascii_of_string s).

(** [ord(c) < 128]. *)
Definition is_ascii (c : N) : bool := (c <? 128)%N.

(** The code points [str.split()] and [str.strip()] treat as whitespace
    (CPython's [Py_UNICODE_ISSPACE]). *)
Definition is_space (c : N) : bool :=
  ((9 <=? c) && (c <=? 13) || (28 <=? c) && (c <=? 32)
   || (c =? 133) || (c =? 160) || (c =? 5760)
   || (8192 <=? c) && (c <=? 8202)
   || (c =? 8232) || (c =? 8233) || (c =? 8239) || (c =? 8287)
   || (c =? 12288))%N.

Definition SPACE : N := 32%N.

(** The scanning loop of [str.split()] without arguments: [cur] holds the
    token being read, most recent code point first; a whitespace code point
    closes the token, and an empty token is never emitted. *)
Fixpoint split_from (cur : pystr) (s : pystr) : list pystr :=
  match s with
  | [] => match cur with [] => [] | _ => [rev cur] end
  | c :: s' =>
      if is_space c
      then match cur with
           | [] => split_from [] s'
           | _ => rev cur :: split_from [] s'
           end
      else split_from (c :: cur) s'
  end.

(** [s.split()]. *)
Definition split (s : pystr) : list pystr := split_from [] s.

(** [sep.join(parts)]. *)
Fixpoint join (sep : pystr) (parts : list pystr) : pystr :=
  match parts with
  | [] => []
  | [p] => p
  | p :: ps => p ++ sep ++ join sep ps
  end.

(** [s.lstrip()], [s.rstrip()], [s.strip()]. *)
Fixpoint lstrip (s : pystr) : pystr :=
  match s with
  | c :: s' => if is_space c then lstrip s' else s
  | [] => []
  end.

Definition rstrip (s : pystr) : pystr := rev (lstrip (rev s)).

Definition strip (s : pystr) : pystr := rstrip (lstrip s).

(** Truth value of an optional string: [None] and [''] are false. *)
Definition truthy (o : option pystr) : bool :=
  match o with
  | Some (_ :: _) => true
  | _ => false
  end.

(** Two adjacent spaces somewhere in [s]. *)
Fixpoint has_double_space (s : pystr) : bool :=
  match s with
  | a :: (b :: _) as t => (a =? SPACE)%N && (b =? SPACE)%N || has_double_space t
  | _ => false
  end.

(** A code point that is not whitespace; a token of [split]: non-empty and
    free of whitespace; a text with nothing to strip on the left. *)
Definition not_space (c : N) : Prop := is_space c = false.

Definition token (tok : pystr) : Prop := tok <> [] /\ Forall not_space tok.

Definition left_trimmed (s : pystr) : Prop :=
  match s with
  | [] => True
  | c :: _ => not_space c
  end.

(** Decimal digits of [n], zero-padded on the left to [width] places (the
    low [width] digits when [n] has more). *)
Fixpoint digits (width : nat) (n : N) : pystr :=
  match width with
  | O => []
  | S w => digits w (n / 10)%N ++ [(48 + n mod 10)%N]
  end.

(** The number a text of decimal digits denotes. *)
Definition decimal_value (s : pystr) : N :=
  fold_left (fun acc c => (10 * acc + (c - 48))%N) s 0%N.

Definition is_digit (c : N) : Prop := (48 <= c <= 57)%N.

End PyStr.

Import PyStr.

(** ** Dates and the clock *)

(** [datetime.date]. *)
Record date := mkDate { year : Z; month : Z; day : Z }.

#[global] Instance date_eq_dec : EqDecision date.
Proof. solve_decision. Defined.

(** [d1 <= d2] on dates: year, then month, then day. *)
Definition date_leb (d1 d2 : date) : bool :=
  (year d1 <? year d2)
  || (year d1 =? year d2)
     && ((month d1 <? month d2)
         || (month d1 =? month d2) && (day d1 <=? day d2)).

(** [d.strftime('%Y-%m-%d')], with the year written in four digits. That
    is what the C library writes from the year 1000 on; below it, glibc
    writes the year without leading zeros. *)
Definition strftime_ymd (d : date) : pystr :=
  digits 4 (Z.to_N (year d)) ++ py "-" ++ digits 2 (Z.to_N (month d))
  ++ py "-" ++ digits 2 (Z.to_N (day d)).

(** A [datetime]: microseconds on the time line; [timedelta(days=n)]. *)
Definition datetime : Type := Z.

Definition timedelta_days (n : Z) : Z := n * 86400000000.

(** The part of the Python runtime the code calls and the repository does
    not contain: the Unicode upper-casing of a code point outside ASCII (it
    may yield several code points) and [datetime.strptime(s, '%Y-%m-%d')],
    which yields [None] where Python raises [ValueError]. *)
Class PyRuntime := {
  unicode_upper : N -> pystr;
  strptime_ymd : pystr -> option date
}.

(** [s.upper()]. *)
Definition upper_char `{PyRuntime} (c : N) : pystr :=
  if ((97 <=? c) && (c <=? 122))%N then [(c - 32)%N]
  else if is_ascii c then [c]
  else unicode_upper c.

Definition upper `{PyRuntime} (s : pystr) : pystr := flat_map upper_char s.

(** A code point that is its own upper case. *)
Definition upper_fixed `{PyRuntime} (c : N) : Prop := upper_char c = [c].

(** ** Exceptions *)

(** The exceptions the modelled calls raise; every one is a subclass of
    Python's [Exception]. *)
Inductive exn : Type :=
  | DoesNotExist
  | MultipleObjectsReturned
  | IntegrityError
  | DatabaseError
  | KeyError
  | APIError
  | OutputParserException.

#[global] Instance exn_eq_dec : EqDecision exn.
Proof. solve_decision. Defined.

(** A call either returns a value or raises. *)
Inductive result (A : Type) : Type :=
  | Ok (a : A)
  | Raise (e : exn).

Arguments Ok {A} a.
Arguments Raise {A} e.

#[global] Instance result_ret : MRet result := fun A a => Ok a.

#[global] Instance result_bind : MBind result := fun A B f m =>
  match m with
  | Ok a => f a
  | Raise e => Raise e
  end.

(** [try: body / except ...: handler]; a handler that does not catch [e]
    re-raises it. *)
Definition try_except {A} (body : result A) (handler : exn -> result A)
  : result A :=
  match body with
  | Ok a => Ok a
  | Raise e => handler e
  end.

Definition raises {A} (r : result A) : Prop := exists e, r = Raise e.

(** ** quotes/models.py *)

Module Models.

(** The columns of a [GPTPromptConfig] row: name, prompts and active flag.
    The timestamps [created_at] and [updated_at] are not carried; every
    real save rewrites [updated_at] of the row it writes. *)
Record GPTPromptConfig := mkConfig {
  name : pystr;
  system_prompt : pystr;
  user_prompt : pystr;
  is_active : bool
}.

(** The table, keyed by primary key. *)
Abbreviation ConfigTable := (gmap Z GPTPromptConfig).

(** A model instance in Python: its primary key ([None] until first saved)
    and its fields. *)
Record ConfigObj := mkObj {
  pk : option Z;
  fields : GPTPromptConfig
}.

Definition deactivate (r : GPTPromptConfig) : GPTPromptConfig :=
  mkConfig (name r) (system_prompt r) (user_prompt r) false.

(** [GPTPromptConfig.objects.exclude(pk=p).update(is_active=False)]: with
    [p = None] no row is excluded. *)
Definition exclude_update_inactive (p : option Z) (t : ConfigTable)
  : ConfigTable :=
  map_imap (fun k r => Some (if decide (Some k = p) then r else deactivate r)) t.

(** The primary key the database gives a new row: one above the highest
    key of the table. (A database sequence also never hands out the key of a
    deleted row again; nothing below depends on which free key it is.) *)
Definition next_pk (t : ConfigTable) : Z :=
  1 + map_fold (fun k _ acc => Z.max k acc) 0 t.

(** The [unique=True] constraint on [name]: a row under another key
    already has this name. *)
Definition name_taken (k : Z) (n : pystr) (t : ConfigTable) : bool :=
  bool_decide (map_Exists (fun k' r => k' <> k /\ name r = n) t).

(** The key an instance is written under: its own, or a new one. *)
Definition save_key (o : ConfigObj) (t : ConfigTable) : Z :=
  match pk o with Some k => k | None => next_pk t end.

(** [models.Model.save]: update the row of the instance's key, or insert
    one; a duplicate name raises and writes nothing. *)
Definition model_save (o : ConfigObj) (t : ConfigTable)
  : ConfigTable * result ConfigObj :=
  let k := save_key o t in
  if name_taken k (name (fields o)) t
  then (t, Raise IntegrityError)
  else (<[k := fields o]> t, Ok (mkObj (Some k) (fields o))).

(** [GPTPromptConfig.save]. The two statements run one after the other,
    each committed on its own. *)
Definition save (o : ConfigObj) (t : ConfigTable)
  : ConfigTable * result ConfigObj :=
  let t1 := if is_active (fields o)
            then exclude_update_inactive (pk o) t
            else t in
  model_save o t1.

(** Deleting a row (the admin's delete). *)
Definition delete_config (k : Z) (t : ConfigTable) : ConfigTable := delete k t.

(** The writes the application makes to the table. *)
Inductive write : Type :=
  | Save (o : ConfigObj)
  | Delete (k : Z).

Definition apply_write (w : write) (t : ConfigTable) : ConfigTable :=
  match w with
  | Save o => fst (save o t)
  | Delete k => delete_config k t
  end.

Definition apply_writes (ws : list write) (t : ConfigTable) : ConfigTable :=
  fold_left (fun t w => apply_write w t) ws t.

(** The active rows, and the invariant of the store. *)
Definition active_rows (t : ConfigTable) : ConfigTable :=
  filter (fun kr => is_active (snd kr) = true) t.

Definition at_most_one_active (t : ConfigTable) : Prop :=
  forall k1 k2 r1 r2,
    t !! k1 = Some r1 -> t !! k2 = Some r2 ->
    is_active r1 = true -> is_active r2 = true -> k1 = k2.

(** [GPTPromptConfig.objects.get(is_active=True)]. *)
Definition objects_get_active (t : ConfigTable) : result GPTPromptConfig :=
  match map_to_list (active_rows t) with
  | [] => Raise DoesNotExist
  | [(_, r)] => Ok r
  | _ => Raise MultipleObjectsReturned
  end.

(** A row of the unmanaged [FRED_AERO] table; both data columns are
    nullable, [index_value] counts thousandths. *)
Record FredAero := mkFred {
  id : Z;
  observation_date : option date;
  index_value : option Z
}.

#[global] Instance FredAero_eq_dec : EqDecision FredAero.
Proof. solve_decision. Defined.

(** [FredAero._get_first_of_month]. *)
Definition _get_first_of_month (target_date : date) : date :=
  mkDate (year target_date) (month target_date) 1.

(** [observation_date__lte=d]: a NULL date satisfies no comparison. *)
Definition observation_date_lte (d : date) (r : FredAero) : bool :=
  match observation_date r with
  | Some od => date_leb od d
  | None => false
  end.

(** The order of [order_by('-observation_date')]: [r1] may come before
    [r2]; NULL dates sort after every date. *)
Definition date_desc (r1 r2 : FredAero) : Prop :=
  match observation_date r1, observation_date r2 with
  | Some d1, Some d2 => date_leb d2 d1 = true
  | Some _, None => True
  | None, Some _ => False
  | None, None => True
  end.

#[global] Instance date_desc_dec : RelDecision date_desc.
Proof.
  intros r1 r2. unfold date_desc.
  destruct (observation_date r1), (observation_date r2); apply _.
Defined.

(** [FredAero.get_index_for_date]: [.first()] is the head of the ordered
    result, [None] when it is empty. *)
Definition get_index_for_date (table : list FredAero) (target_date : date)
  : option FredAero :=
  let first_of_month := _get_first_of_month target_date in
  head (merge_sort date_desc
          (List.filter (observation_date_lte first_of_month) table)).

(** [observation_date__gte=d]. *)
Definition observation_date_gte (d : date) (r : FredAero) : bool :=
  match observation_date r with
  | Some od => date_leb d od
  | None => false
  end.

(** The order of [order_by('observation_date')]. *)
Definition date_asc (r1 r2 : FredAero) : Prop := date_desc r2 r1.

#[global] Instance date_asc_dec : RelDecision date_asc.
Proof. intros r1 r2. unfold date_asc. apply _. Defined.

(** [FredAero.get_index_range_for_analysis]: a missing [end_date] is
    [date.today()]. *)
Definition get_index_range_for_analysis (table : list FredAero) (today : date)
    (start_date : date) (end_date : option date) : list FredAero :=
  let end_date := match end_date with Some d => d | None => today end in
  let start_month := _get_first_of_month start_date in
  let end_month := _get_first_of_month end_date in
  merge_sort date_asc
    (List.filter (fun r => observation_date_gte start_month r
                           && observation_date_lte end_month r) table).

(** No two rows of the table share a name ([unique=True]). *)
Definition names_unique (t : ConfigTable) : Prop :=
  forall k1 k2 r1 r2,
    t !! k1 = Some r1 -> t !! k2 = Some r2 -> name r1 = name r2 -> k1 = k2.

End Models.

(** ** quotes/services/gpt_extractor/extractor.py *)

Module Extractor.

Import Models.

(** The pydantic models of the extracted data. *)
Record QuoteItem := mkItem {
  item_number : option pystr;
  description : option pystr;
  quantity : option float;
  unit_price : option float;
  unit_of_measure : option pystr
}.

Record QuoteData := mkQuote {
  supplier_name : option pystr;
  quote_number : option pystr;
  quote_date : option pystr;
  items : list QuoteItem
}.

(** The prompts returned when no configuration is active. *)
Definition default_system_prompt : pystr :=
  py "You are a precise quote data extractor. Your task is to extract structured data from supplier quotes.
                Important guidelines:
                1. Extract ONLY factual information present in the text
                2. For dates, ensure they are in YYYY-MM-DD format
                3. For numbers, ensure they are converted to proper numerical values
                4. For item numbers, preserve exact formatting
                5. If a value is clearly missing, use null
                6. For unit prices, extract the individual unit price, not total price
                7. If unit of measure is not specified, use 'EA' for each

                The output should match this format exactly:
                {format_instructions}
                ".

Definition default_user_prompt : pystr :=
  py "Please extract the quote information from the following text:

{text_content}".

(** [GPTExtractor._get_active_prompt_config]: only [DoesNotExist] is
    handled. *)
Definition _get_active_prompt_config (t : ConfigTable)
  : result (pystr * pystr) :=
  try_except
    (config ← objects_get_active t;
     mret (system_prompt config, user_prompt config))
    (fun e =>
       match e with
       | DoesNotExist => Ok (default_system_prompt, default_user_prompt)
       | _ => Raise e
       end).

(** A chat message or message template: role and text. *)
Definition Message : Type := pystr * pystr.

(** What an extractor instance works with and the repository does not
    contain: the table of prompt configurations, langchain's template
    construction and formatting, the parser's format instructions and
    [parse], the model call, and the date [datetime.now()] shows. *)
Record Env := mkEnv {
  config_table : ConfigTable;
  from_messages : list Message -> result (list Message);
  format_messages : list Message -> pystr -> pystr -> result (list Message);
  get_format_instructions : pystr;
  llm_invoke : list Message -> result pystr;
  parser_parse : pystr -> result QuoteData;
  today : date
}.

(** [GPTExtractor._create_extraction_prompt]. *)
Definition _create_extraction_prompt (env : Env) : result (list Message) :=
  prompts ← _get_active_prompt_config (config_table env);
  from_messages env [(py "system", fst prompts); (py "user", snd prompts)].

(** [GPTExtractor._preprocess_text]. *)
Definition _preprocess_text (text : pystr) : pystr :=
  let text := join [SPACE] (split text) in
  List.filter is_ascii text.

(** [GPTExtractor._validate_date]. *)
Definition _validate_date `{PyRuntime} (now : date) (date_str : option pystr)
  : option pystr :=
  match date_str with
  | Some (c :: s) =>
      match strptime_ymd (c :: s) with
      | Some date_obj => Some (strftime_ymd date_obj)
      | None => Some (strftime_ymd now)
      end
  | _ => None
  end.

(** The body of the loop over the items in [_validate_quote_data]. *)
Definition validate_item `{PyRuntime} (item : QuoteItem) : QuoteItem :=
  let quantity' :=
    match quantity item with
    | Some q => Some (PrimFloat.abs q)
    | None => None
    end in
  let unit_price' :=
    match unit_price item with
    | Some p => Some (PrimFloat.abs p)
    | None => None
    end in
  let unit_of_measure' :=
    match unit_of_measure item with
    | Some (c :: s) => Some (strip (upper (c :: s)))
    | _ => Some (py "EA")
    end in
  mkItem (item_number item) (description item) quantity' unit_price'
         unit_of_measure'.

(** [GPTExtractor._validate_quote_data]. *)
Definition _validate_quote_data `{PyRuntime} (now : date)
    (quote_data : QuoteData) : QuoteData :=
  let quote_date' :=
    if truthy (quote_date quote_data)
    then _validate_date now (quote_date quote_data)
    else quote_date quote_data in
  mkQuote (supplier_name quote_data) (quote_number quote_data) quote_date'
          (List.map validate_item (items quote_data)).

(** The object built in the [except] branch of [extract_quote_data]. *)
Definition fallback_quote_data (now : date) : QuoteData :=
  mkQuote None None (Some (strftime_ymd now)) [].

(** The [try] block of [extract_quote_data]. *)
Definition extract_body `{PyRuntime} (env : Env) (text_content : pystr)
  : result QuoteData :=
  let cleaned_text := _preprocess_text text_content in
  prompt ← _create_extraction_prompt env;
  formatted_prompt ←
    format_messages env prompt (get_format_instructions env) cleaned_text;
  response ← llm_invoke env formatted_prompt;
  quote_data ← parser_parse env response;
  mret (_validate_quote_data (today env) quote_data).

(** [GPTExtractor.extract_quote_data]: [except Exception] handles every
    exception of the body. *)
Definition extract_quote_data `{PyRuntime} (env : Env) (text_content : pystr)
  : result QuoteData :=
  try_except (extract_body env text_content)
             (fun _ => Ok (fallback_quote_data (today env))).

(** What the validation establishes for an item: a unit of measure that
    is present and has nothing to strip, and no negative number. *)
Definition validated_item (item : QuoteItem) : Prop :=
  (exists u, unit_of_measure item = Some u /\ lstrip u = u /\ rstrip u = u)
  /\ (forall q, quantity item = Some q -> PrimFloat.ltb q 0%float = false)
  /\ (forall p, unit_price item = Some p -> PrimFloat.ltb p 0%float = false).

End Extractor.

(** ** quotes/services/price_analyzer/analyzer.py *)

Module Analyzer.

(** [PriceAnalyzer]: the units it is built with. *)
Record PriceAnalyzer := mkAnalyzer { business_units : list pystr }.

Definition default_analyzer : PriceAnalyzer :=
  mkAnalyzer [py "business_unit_a"; py "business_unit_b"; py "business_unit_c"].

(** A row of the frame of historical prices, its purchase date a datetime.
    (A column of [datetime.date] objects is not a frame of such rows: the
    comparisons of [calculate_price_statistics] with [datetime.now()] raise
    [TypeError] on it.) *)
Record PriceRow := mkRow {
  business_unit : pystr;
  price : float;
  purchase_date : datetime
}.

(** A unit's database: opening the cursor and running the query for an item
    number and a cutoff either returns the rows [(price, purchase_date)] or
    raises. *)
Definition Source : Type :=
  pystr -> pystr -> datetime -> result (list (float * datetime)).

Definition tag_rows (unit : pystr) (rows : list (float * datetime))
  : list PriceRow :=
  List.map (fun r => mkRow unit (fst r) (snd r)) rows.

(** The [for unit in self.business_units] loop: [all_data] is the list of
    frames appended so far; nothing handles an exception of a query. *)
Fixpoint fetch_loop (query : Source) (item_number : pystr) (cutoff_date : datetime)
    (units : list pystr) (all_data : list (list PriceRow))
  : result (list (list PriceRow)) :=
  match units with
  | [] => Ok all_data
  | unit :: units' =>
      rows ← query unit item_number cutoff_date;
      fetch_loop query item_number cutoff_date units'
                 (all_data ++ [tag_rows unit rows])
  end.

(** [PriceAnalyzer.fetch_historical_prices]; [pd.concat] appends the frames
    in order. *)
Definition fetch_historical_prices (self : PriceAnalyzer) (query : Source)
    (now : datetime) (item_number : pystr) (lookback_days : Z)
  : result (list PriceRow) :=
  let cutoff_date := now - timedelta_days lookback_days in
  all_data ← fetch_loop query item_number cutoff_date (business_units self) [];
  match all_data with
  | [] => mret []
  | _ => mret (concat all_data)
  end.

(** The arithmetic [_normalize_series] asks of the values of a series; the
    code applies it to prices and to index values alike. *)
Class SeriesNum (A : Type) := {
  num_zero : A;
  num_hundred : A;
  num_sub : A -> A -> A;
  num_div : A -> A -> A;
  num_mul : A -> A -> A;
  num_eq_zero : A -> bool
}.

(** Python floats. *)
#[global] Instance float_SeriesNum : SeriesNum float := {|
  num_zero := 0%float;
  num_hundred := 100%float;
  num_sub := PrimFloat.sub;
  num_div := PrimFloat.div;
  num_mul := PrimFloat.mul;
  num_eq_zero := fun x => PrimFloat.eqb x 0%float
|}.

(** [PriceAnalyzer._normalize_series]. *)
Definition _normalize_series {A} `{SeriesNum A} (data : list A) : list A :=
  match data with
  | [] => []
  | first_value :: _ =>
      if num_eq_zero first_value
      then repeat num_zero (length data)
      else List.map
             (fun v => num_mul (num_div (num_sub v first_value) first_value)
                               num_hundred)
             data
  end.

(** The value the normalization gives to [v] in a series starting at
    [v0]. *)
Definition percent_change {A} `{SeriesNum A} (v0 v : A) : A :=
  num_mul (num_div (num_sub v v0) v0) num_hundred.

(** The aggregates of a pandas series the statistics call. *)
Record SeriesAgg := mkAgg {
  series_min : list float -> float;
  series_max : list float -> float;
  series_mean : list float -> float;
  series_std : list float -> float
}.

(** The dictionary [calculate_price_statistics] returns. *)
Record PriceStatistics := mkStats {
  min_price : option float;
  max_price : option float;
  avg_price : option float;
  price_volatility : option float;
  recent_trend : option float
}.

Definition prices (data : list PriceRow) : list float := List.map price data.

(** The three row selections of [calculate_price_statistics]; each reads
    the clock when it is evaluated. *)
Definition recent_rows (now : datetime) (data : list PriceRow) : list PriceRow :=
  List.filter (fun r => now - timedelta_days 90 <=? purchase_date r) data.

Definition previous_rows (now_hi now_lo : datetime) (data : list PriceRow)
  : list PriceRow :=
  List.filter (fun r => (purchase_date r <? now_hi - timedelta_days 90)
                        && (now_lo - timedelta_days 180 <=? purchase_date r))
              data.

(** [PriceAnalyzer.calculate_price_statistics]. [clock n] is what the
    [n]-th call of [datetime.now()] within the call returns. *)
Definition calculate_price_statistics (agg : SeriesAgg) (clock : nat -> datetime)
    (data : list PriceRow) : PriceStatistics :=
  match data with
  | [] => mkStats None None None None None
  | _ =>
      let recent_data := recent_rows (clock 0%nat) data in
      let previous_data := previous_rows (clock 1%nat) (clock 2%nat) data in
      let trend :=
        match recent_data, previous_data with
        | _ :: _, _ :: _ =>
            let recent_avg := series_mean agg (prices recent_data) in
            let previous_avg := series_mean agg (prices previous_data) in
            Some ((recent_avg - previous_avg) / previous_avg * 100)%float
        | _, _ => None
        end in
      mkStats (Some (series_min agg (prices data)))
              (Some (series_max agg (prices data)))
              (Some (series_mean agg (prices data)))
              (Some (series_std agg (prices data)))
              trend
  end.

(** The recent trend as the specification words it, relative to one
    instant [now]: the recent rows have [now - 90d <= purchase_date], the
    prior rows [now - 180d <= purchase_date < now - 90d], and the trend is
    defined when both selections are non-empty. *)
Definition spec_recent_rows (now : datetime) (data : list PriceRow)
  : list PriceRow :=
  List.filter (fun r => now - timedelta_days 90 <=? purchase_date r) data.

Definition spec_prior_rows (now : datetime) (data : list PriceRow)
  : list PriceRow :=
  List.filter (fun r => (now - timedelta_days 180 <=? purchase_date r)
                        && (purchase_date r <? now - timedelta_days 90))
              data.

Definition spec_recent_trend (agg : SeriesAgg) (now : datetime)
    (data : list PriceRow) : option float :=
  match spec_recent_rows now data, spec_prior_rows now data with
  | _ :: _, _ :: _ =>
      let recent_avg := series_mean agg (prices (spec_recent_rows now data)) in
      let prior_avg := series_mean agg (prices (spec_prior_rows now data)) in
      Some ((recent_avg - prior_avg) / prior_avg * 100)%float
  | _, _ => None
  end.

(** The dictionary [analyze_item_prices] returns. *)
Record Analysis := mkAnalysis {
  statistics : PriceStatistics;
  plot_path : option pystr;
  has_data : bool
}.

(** [generate_price_trend_plot] as [analyze_item_prices] sees it: the
    drawing either gives the path of the image or raises. *)
Definition Plotter : Type := list PriceRow -> pystr -> result (option pystr).

(** [PriceAnalyzer.analyze_item_prices]. The fetch takes the first reading
    of the clock, the statistics the readings after it. *)
Definition analyze_item_prices (self : PriceAnalyzer) (query : Source)
    (plot : Plotter) (agg : SeriesAgg) (clock : nat -> datetime)
    (item_number : pystr) (lookback_days : Z) : result Analysis :=
  historical_data ←
    fetch_historical_prices self query (clock 0%nat) item_number lookback_days;
  match historical_data with
  | [] =>
      mret (mkAnalysis
              (calculate_price_statistics agg (fun n => clock (S n))
                                          historical_data)
              None false)
  | _ =>
      plot_path ← plot historical_data item_number;
      mret (mkAnalysis
              (calculate_price_statistics agg (fun n => clock (S n))
                                          historical_data)
              plot_path true)
  end.

End Analyzer.

(** ** quotes/services/report_generator/generator.py *)

Module Generator.

Import Extractor Analyzer.

(** What can go wrong inside [generate_pdf]: an arithmetic on [None], an
    exception of the price analysis, an exception of the PDF library. *)
Inductive pdf_exn : Type :=
  | TypeError
  | AnalysisRaised (e : exn)
  | PdfError.

Inductive outcome (A : Type) : Type :=
  | Done (a : A)
  | Failed (e : pdf_exn).

Arguments Done {A} a.
Arguments Failed {A} e.

#[global] Instance outcome_ret : MRet outcome := fun A a => Done a.

#[global] Instance outcome_bind : MBind outcome := fun A B f m =>
  match m with
  | Done a => f a
  | Failed e => Failed e
  end.

(** [a * b] on optional floats: a [None] operand raises [TypeError]. *)
Definition py_mul (a b : option float) : outcome float :=
  match a, b with
  | Some x, Some y => Done (x * y)%float
  | _, _ => Failed TypeError
  end.

(** Python's number formatting, which the repository does not contain:
    [str(x)], [format(x, ',.2f')] and [format(x, '+.1f')] of a float. *)
Record Formatter := mkFormatter {
  float_str : float -> pystr;
  float_grouped_2f : float -> pystr;
  float_signed_1f : float -> pystr
}.

(** [ReportGenerator._format_currency] and [_format_percentage]. *)
Definition _format_currency (fmt : Formatter) (value : option float) : pystr :=
  match value with
  | Some v => py "$" ++ float_grouped_2f fmt v
  | None => py "N/A"
  end.

Definition _format_percentage (fmt : Formatter) (value : option float) : pystr :=
  match value with
  | Some v => float_signed_1f fmt v ++ py "%"
  | None => py "N/A"
  end.

(** An optional string and an optional float inside an f-string. *)
Definition str_opt (o : option pystr) : pystr :=
  match o with
  | Some s => s
  | None => py "None"
  end.

Definition str_opt_float (fmt : Formatter) (o : option float) : pystr :=
  match o with
  | Some x => float_str fmt x
  | None => py "None"
  end.

Definition NEWLINE : N := 10%N.

(** [s.split('\n')]: every newline ends a line, empty lines are kept. *)
Fixpoint split_on_newline (cur : pystr) (s : pystr) : list pystr :=
  match s with
  | [] => [rev cur]
  | c :: s' =>
      if (c =? NEWLINE)%N
      then rev cur :: split_on_newline [] s'
      else split_on_newline (c :: cur) s'
  end.

Definition split_lines (s : pystr) : list pystr := split_on_newline [] s.

(** The calls [generate_pdf] makes to the PDF library, over a document
    handle [D] that knows its current (last created) page: each call may
    raise. [insert_text] takes the point, the text, the font size and the
    optional [align]; [insert_image] the rectangle and the file name. *)
Record PdfLib (D : Type) := mkPdfLib {
  pdf_open : outcome D;
  new_page : D -> Z -> Z -> outcome D;
  insert_text : D -> Z * Z -> pystr -> Z -> option Z -> outcome D;
  insert_image : D -> Z * Z * Z * Z -> pystr -> outcome D;
  pdf_save : D -> pystr -> outcome D;
  pdf_close : D -> outcome unit
}.

Arguments pdf_open {D} _.
Arguments new_page {D} _ _ _ _.
Arguments insert_text {D} _ _ _ _ _ _.
Arguments insert_image {D} _ _ _ _.
Arguments pdf_save {D} _ _ _.
Arguments pdf_close {D} _ _.

(** The price analysis of an item number as the generator calls it. *)
Definition Analyze : Type := option pystr -> result Analysis.

Definition run_analysis (analyze : Analyze) (item_number : option pystr)
  : outcome Analysis :=
  match analyze item_number with
  | Ok a => Done a
  | Raise e => Failed (AnalysisRaised e)
  end.

Definition title_size : Z := 24.
Definition heading_size : Z := 16.
Definition normal_size : Z := 11.

Section GeneratePdf.

Context {D : Type} (lib : PdfLib D) (fmt : Formatter) (analyze : Analyze).

(** [for line in text.split('\n'): page.insert_text((50, y_position), line,
    fontsize=normal_size); y_position += 20]. *)
Fixpoint draw_lines (d : D) (y_position : Z) (lines : list pystr)
  : outcome (D * Z) :=
  match lines with
  | [] => Done (d, y_position)
  | line :: lines' =>
      d' ← insert_text lib d (50, y_position) line normal_size None;
      draw_lines d' (y_position + 20) lines'
  end.

(** [if y_position > limit: page = pdf_doc.new_page(...); y_position = 50]. *)
Definition page_break (limit : Z) (d : D) (y_position : Z) : outcome (D * Z) :=
  if limit <? y_position
  then d' ← new_page lib d 612 792; Done (d', 50)
  else Done (d, y_position).

Definition item_text (item : QuoteItem) (total : float) : pystr :=
  py "Item Number: " ++ str_opt (item_number item) ++ [NEWLINE]
  ++ py "Description: " ++ str_opt (description item) ++ [NEWLINE]
  ++ py "Quantity: " ++ str_opt_float fmt (quantity item) ++ [NEWLINE]
  ++ py "Unit Price: " ++ _format_currency fmt (unit_price item) ++ [NEWLINE]
  ++ py "Total: " ++ _format_currency fmt (Some total).

Definition stats_text (stats : PriceStatistics) : pystr :=
  let text :=
    py "Minimum Price: " ++ _format_currency fmt (min_price stats) ++ [NEWLINE]
    ++ py "Maximum Price: " ++ _format_currency fmt (max_price stats)
    ++ [NEWLINE]
    ++ py "Average Price: " ++ _format_currency fmt (avg_price stats)
    ++ [NEWLINE]
    ++ py "Price Volatility: "
    ++ _format_currency fmt (price_volatility stats) in
  match recent_trend stats with
  | Some trend =>
      text ++ [NEWLINE] ++ py "90-Day Trend: "
      ++ _format_percentage fmt (Some trend)
  | None => text
  end.

(** The block under [if analysis['has_data']]. *)
Definition draw_analysis (item : QuoteItem) (analysis : Analysis) (d : D)
    (y_position : Z) : outcome (D * Z) :=
  st ← page_break 600 d y_position;
  let y_position := snd st + 20 in
  d ← insert_text lib (fst st) (50, y_position)
        (py "Price Analysis - " ++ str_opt (item_number item))
        heading_size None;
  let y_position := y_position + 30 in
  st ← draw_lines d y_position (split_lines (stats_text (statistics analysis)));
  match plot_path analysis with
  | Some (c :: path) =>
      st ← page_break 600 (fst st) (snd st);
      let y_position := snd st in
      d ← insert_image lib (fst st) (50, y_position, 550, y_position + 300)
            (c :: path);
      Done (d, y_position + 320)
  | _ => Done st
  end.

(** The body of [for item in self.quote_data['items']]. *)
Definition draw_item (item : QuoteItem) (d : D) (y_position : Z)
  : outcome (D * Z) :=
  st ← page_break 700 d y_position;
  total ← py_mul (quantity item) (unit_price item);
  st ← draw_lines (fst st) (snd st) (split_lines (item_text item total));
  analysis ← run_analysis analyze (item_number item);
  st ← (if has_data analysis
        then draw_analysis item analysis (fst st) (snd st)
        else Done st);
  Done (fst st, snd st + 30).

Fixpoint draw_items (items : list QuoteItem) (d : D) (y_position : Z)
  : outcome (D * Z) :=
  match items with
  | [] => Done (d, y_position)
  | item :: items' =>
      st ← draw_item item d y_position;
      draw_items items' (fst st) (snd st)
  end.

Definition info_text (quote_data : QuoteData) : pystr :=
  py "Supplier: " ++ str_opt (supplier_name quote_data) ++ [NEWLINE]
  ++ py "Quote Number: " ++ str_opt (quote_number quote_data) ++ [NEWLINE]
  ++ py "Date: " ++ str_opt (quote_date quote_data).

(** The [try] block of [generate_pdf], up to [pdf_doc.close()]; the value
    is the document handle after [save]. *)
Definition generate_pdf_body (quote_data : QuoteData) (pdf_path : pystr)
  : outcome D :=
  d ← pdf_open lib;
  d ← new_page lib d 612 792;
  let y_position := 50 in
  d ← insert_text lib d (306, y_position) (py "Quote Analysis Report")
        title_size (Some 1);
  let y_position := y_position + 50 in
  d ← insert_text lib d (50, y_position) (py "Quote Information")
        heading_size None;
  let y_position := y_position + 30 in
  st ← draw_lines d y_position (split_lines (info_text quote_data));
  let y_position := snd st + 20 in
  d ← insert_text lib (fst st) (50, y_position) (py "Items") heading_size None;
  let y_position := y_position + 30 in
  st ← draw_items (items quote_data) d y_position;
  d ← pdf_save lib (fst st) pdf_path;
  _ ← pdf_close lib d;
  Done d.

(** [ReportGenerator.generate_pdf]: the path of the file, or [None] after
    any exception. *)
Definition generate_pdf (quote_data : QuoteData) (pdf_path : pystr)
  : option pystr :=
  match generate_pdf_body quote_data pdf_path with
  | Done _ => Some pdf_path
  | Failed _ => None
  end.

End GeneratePdf.

(** A PDF library that only records what it is asked to draw, and on which
    page; it takes every call, [align] included. *)
Inductive draw : Type :=
  | InsertText (point : Z * Z) (text : pystr) (fontsize : Z) (align : option Z)
  | InsertImage (rect : Z * Z * Z * Z) (filename : pystr).

Record Recording := mkRecording {
  page_count : nat;
  drawn : list (nat * draw);
  saved_as : option pystr
}.

Definition recorder : PdfLib Recording := {|
  pdf_open := Done (mkRecording 0 [] None);
  new_page := fun d _ _ =>
    Done (mkRecording (S (page_count d)) (drawn d) (saved_as d));
  insert_text := fun d point text fontsize align =>
    Done (mkRecording (page_count d)
            (drawn d ++ [(page_count d, InsertText point text fontsize align)])
            (saved_as d));
  insert_image := fun d rect filename =>
    Done (mkRecording (page_count d)
            (drawn d ++ [(page_count d, InsertImage rect filename)])
            (saved_as d));
  pdf_save := fun d path =>
    Done (mkRecording (page_count d) (drawn d) (Some path));
  pdf_close := fun _ => Done tt
|}.

(** PyMuPDF's [Page.insert_text] has no [align] parameter: a call that
    passes one raises [TypeError]. This is the recording library with that
    signature. *)
Definition recorder_no_align : PdfLib Recording := {|
  pdf_open := pdf_open recorder;
  new_page := new_page recorder;
  insert_text := fun d point text fontsize align =>
    match align with
    | Some _ => Failed TypeError
    | None => insert_text recorder d point text fontsize None
    end;
  insert_image := insert_image recorder;
  pdf_save := pdf_save recorder;
  pdf_close := pdf_close recorder
|}.

(** A library whose [insert_text] raises when it is given [align]. *)
Definition rejects_align {D} (lib : PdfLib D) : Prop :=
  forall d point text fontsize align,
  exists e, insert_text lib d point text fontsize (Some align) = Failed e.

(** An item the generator cannot draw: a number is missing, or its price
    analysis raises. *)
Definition undrawable (analyze : Analyze) (item : QuoteItem) : Prop :=
  quantity item = None \/ unit_price item = None
  \/ exists e, analyze (item_number item) = Raise e.

End Generator.

(** ** quotes/views.py: the download view *)

Module Views.

(** The columns of a [Quote] the download view reads: the names of the two
    report files, [None] when no file is associated. *)
Record Quote := mkQuoteRow {
  processed_pdf : option pystr;
  docx_file : option pystr
}.

(** The exceptions of the view, with the text [str(e)] gives. *)
Inductive view_exn : Type :=
  | QuoteDoesNotExist
  | Http404 (message : pystr)
  | ValueError (message : pystr)
  | OtherError (message : pystr).

Definition str_exn (e : view_exn) : pystr :=
  match e with
  | QuoteDoesNotExist => py "Quote matching query does not exist."
  | Http404 m => m
  | ValueError m => m
  | OtherError m => m
  end.

Inductive raised (A : Type) : Type :=
  | Returned (a : A)
  | Raised (e : view_exn).

Arguments Returned {A} a.
Arguments Raised {A} e.

#[global] Instance raised_ret : MRet raised := fun A a => Returned a.

#[global] Instance raised_bind : MBind raised := fun A B f m =>
  match m with
  | Returned a => f a
  | Raised e => Raised e
  end.

(** What the view answers. *)
Inductive response : Type :=
  | FileResponse (file_path content_type content_disposition : pystr)
  | Redirect (to : pystr) (error_message : pystr).

(** A call into the storage or the file system: its value, or the text of
    the exception it raises. *)
Inductive io (A : Type) : Type :=
  | IoOk (a : A)
  | IoError (message : pystr).

Arguments IoOk {A} a.
Arguments IoError {A} message.

Definition run_io {A} (r : io A) : raised A :=
  match r with
  | IoOk a => Returned a
  | IoError m => Raised (OtherError m)
  end.

(** The database and the file system as the view uses them: the quote of
    an id, the path the storage gives a file name, and [open(path, 'rb')]. *)
Record Site := mkSite {
  quotes : gmap Z Quote;
  storage_path : pystr -> io pystr;
  open_rb : pystr -> io unit
}.

(** [Quote.objects.get(id=quote_id)]. *)
Definition get_quote (site : Site) (quote_id : Z) : raised Quote :=
  match quotes site !! quote_id with
  | Some q => Returned q
  | None => Raised QuoteDoesNotExist
  end.

(** [field.path]: a field without a file raises [ValueError]. *)
Definition field_path (site : Site) (field_name : pystr)
    (field : option pystr) : raised pystr :=
  match field with
  | Some (c :: file) => run_io (storage_path site (c :: file))
  | _ =>
      Raised (ValueError (py "The '" ++ field_name
                          ++ py "' attribute has no file associated with it."))
  end.

(** [os.path.basename]: what follows the last slash. *)
Fixpoint basename_from (cur : pystr) (s : pystr) : pystr :=
  match s with
  | [] => rev cur
  | c :: s' => if (c =? 47)%N then basename_from [] s'
               else basename_from (c :: cur) s'
  end.

Definition basename (s : pystr) : pystr := basename_from [] s.

(** The [try] block of [DownloadReportView.get]. *)
Definition download_body (site : Site) (quote_id : Z) (format : pystr)
  : raised response :=
  quote ← get_quote site quote_id;
  choice ←
    (if decide (format = py "pdf")
     then file_path ← field_path site (py "processed_pdf") (processed_pdf quote);
          mret (file_path, py "application/pdf")
     else if decide (format = py "docx")
     then file_path ← field_path site (py "docx_file") (docx_file quote);
          mret (file_path,
                py "application/vnd.openxmlformats-officedocument.wordprocessingml.document")
     else Raised (Http404 (py "Invalid format requested")));
  _ ← run_io (open_rb site (fst choice));
  mret (FileResponse (fst choice) (snd choice)
          (py "attachment; filename=" ++ [34%N] ++ basename (fst choice)
           ++ [34%N])).

(** [DownloadReportView.get]: [Quote.DoesNotExist] becomes an [Http404],
    every other exception an error message and a redirect. *)
Definition download_get (site : Site) (quote_id : Z) (format : pystr)
  : raised response :=
  match download_body site quote_id format with
  | Returned r => Returned r
  | Raised QuoteDoesNotExist => Raised (Http404 (py "Quote not found"))
  | Raised e =>
      Returned (Redirect (py "quote_result")
                         (py "Error downloading file: " ++ str_exn e))
  end.

End Views.

(** ** Concrete data used to run the definitions *)

Module Examples.

Import Models Extractor Analyzer.

(** A runtime for the examples: code points outside ASCII are their own
    upper case, and a date is read from exactly [dddd-dd-dd]. *)
Definition digit_val (c : N) : option Z :=
  if ((48 <=? c) && (c <=? 57))%N then Some (Z.of_N c - 48) else None.

Fixpoint number_of (s : pystr) (acc : Z) : option Z :=
  match s with
  | [] => Some acc
  | c :: s' => d ← digit_val c; number_of s' (10 * acc + d)
  end.

Definition example_strptime (s : pystr) : option date :=
  match s with
  | [y1; y2; y3; y4; d1; m1; m2; d2; a1; a2] =>
      if ((d1 =? 45) && (d2 =? 45))%N
      then y ← number_of [y1; y2; y3; y4] 0;
           m ← number_of [m1; m2] 0;
           a ← number_of [a1; a2] 0;
           if (1 <=? m) && (m <=? 12) && (1 <=? a) && (a <=? 31)
           then Some (mkDate y m a) else None
      else None
  | _ => None
  end.

Definition example_runtime : PyRuntime :=
  {| unicode_upper := fun c => [c]; strptime_ymd := example_strptime |}.

(** Two prompt configurations. *)
Definition config_A : GPTPromptConfig :=
  mkConfig (py "A") (py "system A {format_instructions}")
           (py "user A {text_content}") true.

Definition config_B : GPTPromptConfig :=
  mkConfig (py "B") (py "system B {format_instructions}")
           (py "user B {text_content}") true.

(** A store in which only "A" (key 1) is active, "B" (key 2) inactive. *)
Definition store_A_active : ConfigTable :=
  <[2 := deactivate config_B]> (<[1 := config_A]> ∅).

(** A store that breaks the invariant: both rows active. *)
Definition store_two_active : ConfigTable :=
  <[2 := config_B]> (<[1 := config_A]> ∅).

(** An item as the model may return it. *)
Definition item_minus_five : QuoteItem :=
  mkItem (Some (py "P-100")) (Some (py "Bolt")) (Some (-5)%float)
         (Some (-2.5)%float) None.

Definition item_blank_unit : QuoteItem :=
  mkItem (Some (py "P-101")) (Some (py "Nut")) (Some 3%float)
         (Some 1.5%float) (Some (py " ")).

Definition item_lower_unit : QuoteItem :=
  mkItem (Some (py "P-102")) (Some (py "Cable")) (Some (-12)%float)
         (Some 0.75%float) (Some (py " ft ")).

Definition quote_from_model : QuoteData :=
  mkQuote (Some (py "ACME")) (Some (py "Q-1")) (Some (py "2024-03-17"))
          [item_minus_five].

(** An environment in which every call succeeds. *)
Definition env_ok (t : ConfigTable) : Env :=
  mkEnv t
        (fun ms => Ok ms)
        (fun ms _ text => Ok (List.map (fun m => (fst m, snd m ++ text)) ms))
        (py "schema")
        (fun _ => Ok (py "{}"))
        (fun _ => Ok quote_from_model)
        (mkDate 2026 11 4).

(** The same with a model call that fails, and with a parser that rejects
    the model's output. *)
Definition env_llm_down (t : ConfigTable) : Env :=
  mkEnv t (from_messages (env_ok t)) (format_messages (env_ok t))
        (py "schema") (fun _ => Raise APIError) (fun _ => Ok quote_from_model)
        (mkDate 2026 11 4).

Definition env_bad_output (t : ConfigTable) : Env :=
  mkEnv t (from_messages (env_ok t)) (format_messages (env_ok t))
        (py "schema") (fun _ => Ok (py "no json"))
        (fun _ => Raise OutputParserException)
        (mkDate 2026 11 4).

(** Index observations. *)
Definition obs_feb : FredAero := mkFred 1 (Some (mkDate 2024 2 1)) (Some 251340).
Definition obs_mar : FredAero := mkFred 2 (Some (mkDate 2024 3 1)) (Some 252100).
Definition obs_apr : FredAero := mkFred 3 (Some (mkDate 2024 4 1)) (Some 253000).
Definition obs_null : FredAero := mkFred 4 None None.

(** Price sources: units a and c answer, unit b raises. *)
Definition source_b_down : Source := fun unit _ _ =>
  if decide (unit = py "business_unit_b") then Raise DatabaseError
  else Ok [(10%float, 0)].

Definition source_all_up : Source := fun unit _ _ =>
  if decide (unit = py "business_unit_b") then Ok []
  else Ok [(10%float, 0)].

(** Plain left-to-right aggregates of a list of floats. *)
Definition fsum (l : list float) : float := fold_left PrimFloat.add l 0%float.

Definition fmean (l : list float) : float :=
  (fsum l / PrimFloat.of_uint63 (Uint63.of_Z (Z.of_nat (length l))))%float.

Definition fmin (l : list float) : float :=
  match l with
  | [] => nan
  | x :: l' => fold_left (fun a b => if PrimFloat.ltb b a then b else a) l' x
  end.

Definition fmax (l : list float) : float :=
  match l with
  | [] => nan
  | x :: l' => fold_left (fun a b => if PrimFloat.ltb a b then b else a) l' x
  end.

Definition fstd (l : list float) : float :=
  let m := fmean l in
  let n := PrimFloat.of_uint63 (Uint63.of_Z (Z.of_nat (length l))) in
  PrimFloat.sqrt
    (fsum (List.map (fun x => ((x - m) * (x - m))%float) l) / (n - 1))%float.

Definition example_agg : SeriesAgg := mkAgg fmin fmax fmean fstd.

(** A formatter that writes every number the same way, an analysis without
    data, and two quotes: one with a complete item, one with an item whose
    unit price is missing. *)
Definition example_formatter : Generator.Formatter :=
  Generator.mkFormatter (fun _ => py "5.0") (fun _ => py "12.50")
                        (fun _ => py "+1.0").

Definition analyze_no_data : Generator.Analyze := fun _ =>
  Ok (mkAnalysis (mkStats None None None None None) None false).

Definition quote_complete : QuoteData :=
  mkQuote (Some (py "ACME")) (Some (py "Q-1")) (Some (py "2024-03-17"))
          [mkItem (Some (py "P-100")) (Some (py "Bolt")) (Some 5%float)
                  (Some 2.5%float) (Some (py "EA"))].

Definition quote_missing_price : QuoteData :=
  mkQuote (Some (py "ACME")) (Some (py "Q-2")) (Some (py "2024-03-17"))
          [mkItem (Some (py "P-100")) (Some (py "Bolt")) (Some 5%float)
                  None (Some (py "EA"))].

(** A site with one quote, which has a PDF report and no DOCX report. *)
Definition example_site : Views.Site :=
  Views.mkSite
    {[ 7 := Views.mkQuoteRow (Some (py "reports/pdf/quote_analysis_1.pdf")) None ]}
    (fun file => Views.IoOk (py "/srv/media/" ++ file))
    (fun _ => Views.IoOk tt).

(** A plotter that draws nothing and returns the path the code builds. *)
Definition example_plot : Plotter := fun _ item_number =>
  Ok (Some (py "media/plots/price_trend_" ++ item_number ++ py ".png")).

(** The rows [source_all_up] returns for a unit. *)
Definition rows_all_up (unit : pystr) : list (float * datetime) :=
  if decide (unit = py "business_unit_b") then [] else [(10%float, 0)].

(** Prices over 120 days, seen from day 200: two purchases in the last 90
    days, two in the 90 days before. *)
Definition on_day (n : Z) : datetime := timedelta_days n.

Definition prices_120_days : list PriceRow :=
  [ mkRow (py "business_unit_a") 120%float (on_day 190);
    mkRow (py "business_unit_a") 100%float (on_day 150);
    mkRow (py "business_unit_b") 90%float (on_day 100);
    mkRow (py "business_unit_b") 70%float (on_day 70) ].

(** A run of the statistics whose clock advances 300 microseconds from
    one reading to the next (the first reading is 2023-11-14 22:13:20 UTC
    in microseconds), and a purchase made 90 days before the first reading,
    100 microseconds later. *)
Definition clock_advancing : nat -> datetime := fun n =>
  1700000000000000 + 300 * Z.of_nat n.

Definition row_on_boundary : PriceRow :=
  mkRow (py "business_unit_a") 100%float 1692224000000100.

Definition prices_last_90_days : list PriceRow :=
  [ mkRow (py "business_unit_a") 120%float (on_day 190);
    mkRow (py "business_unit_a") 100%float (on_day 150) ].

End Examples.

(** * Properties *)

(** ** Strings *)

Section StringFacts.

Import Extractor.

Lemma is_space_SPACE : is_space SPACE = true.
Proof. reflexivity. Qed.

Lemma is_ascii_SPACE : is_ascii SPACE = true.
Proof. reflexivity. Qed.

Lemma is_ascii_lt (c : N) : is_ascii c = true <-> (c < 128)%N.
Proof. unfold is_ascii. apply N.ltb_lt. Qed.

Lemma not_space_ne_SPACE (c : N) : not_space c -> c <> SPACE.
Proof. intros Hc ->. unfold not_space in Hc. rewrite is_space_SPACE in Hc. discriminate. Qed.

Lemma token_rev_cons (c : N) (cur : pystr) :
  Forall not_space (c :: cur) -> token (rev (c :: cur)).
Proof.
  intros Hcur. split.
  - intros Hnil. apply (f_equal (@length N)) in Hnil.
    rewrite length_rev in Hnil. discriminate.
  - apply Forall_rev. exact Hcur.
Qed.

Lemma split_from_tokens (s cur : pystr) :
  Forall not_space cur -> Forall token (split_from cur s).
Proof.
  revert cur. induction s as [|c s IH]; intros cur Hcur; simpl.
  - destruct cur as [|x cur]; [constructor|].
    constructor; [|constructor]. apply token_rev_cons, Hcur.
  - destruct (is_space c) eqn:Hc.
    + destruct cur as [|x cur].
      * apply IH. constructor.
      * constructor; [apply token_rev_cons, Hcur|]. apply IH. constructor.
    + apply IH. constructor; assumption.
Qed.

Lemma split_tokens (s : pystr) : Forall token (split s).
Proof. apply split_from_tokens. constructor. Qed.

(** Every code point of a token comes from the text. *)
Lemma split_from_Forall (P : N -> Prop) (s cur : pystr) :
  Forall P cur -> Forall P s -> Forall (Forall P) (split_from cur s).
Proof.
  revert cur. induction s as [|c s IH]; intros cur Hcur Hs; simpl.
  - destruct cur; [constructor|].
    constructor; [|constructor]. apply Forall_rev, Hcur.
  - apply Forall_cons in Hs as [Hc Hs].
    destruct (is_space c).
    + destruct cur.
      * apply IH; [constructor | exact Hs].
      * constructor; [apply Forall_rev, Hcur|]. apply IH; [constructor | exact Hs].
    + apply IH; [constructor; assumption | exact Hs].
Qed.

(** The tokens are the text without its whitespace, in order. *)
Lemma concat_split_from (s cur : pystr) :
  concat (split_from cur s)
  = rev cur ++ List.filter (fun c => negb (is_space c)) s.
Proof.
  revert cur. induction s as [|c s IH]; intros cur; simpl.
  - destruct cur; simpl; rewrite ?app_nil_r; reflexivity.
  - destruct (is_space c); simpl.
    + destruct cur; simpl; rewrite IH; reflexivity.
    + rewrite IH. simpl. rewrite <- app_assoc. reflexivity.
Qed.

Lemma concat_split (s : pystr) :
  concat (split s) = List.filter (fun c => negb (is_space c)) s.
Proof. apply concat_split_from. Qed.

Lemma join_cons (sep p : pystr) (ps : list pystr) :
  ps <> [] -> join sep (p :: ps) = p ++ sep ++ join sep ps.
Proof. destruct ps; [congruence | reflexivity]. Qed.

(** Removing the non-ASCII code points commutes with joining on spaces. *)
Lemma filter_ascii_join (toks : list pystr) :
  List.filter is_ascii (join [SPACE] toks)
  = join [SPACE] (List.map (List.filter is_ascii) toks).
Proof.
  induction toks as [|p ps IH]; [reflexivity|].
  destruct ps as [|q ps]; [reflexivity|].
  rewrite join_cons by discriminate.
  change (List.map (List.filter is_ascii) (p :: q :: ps))
    with (List.filter is_ascii p :: List.map (List.filter is_ascii) (q :: ps)).
  rewrite (join_cons [SPACE] (List.filter is_ascii p)) by (simpl; discriminate).
  rewrite !List.filter_app, IH. reflexivity.
Qed.

Lemma Forall_join (P : N -> Prop) (sep : pystr) (toks : list pystr) :
  Forall P sep -> Forall (Forall P) toks -> Forall P (join sep toks).
Proof.
  intros Hsep. induction toks as [|p ps IH]; intros Htoks; [constructor|].
  apply Forall_cons in Htoks as [Hp Hps].
  destruct ps as [|q ps]; [exact Hp|].
  rewrite join_cons by discriminate.
  apply Forall_app; split; [exact Hp|].
  apply Forall_app; split; [exact Hsep | apply IH, Hps].
Qed.

(** A token followed by a space and a text that neither starts with a space
    nor has a double space. *)
Lemma has_double_space_token_app (tok rest : pystr) :
  token tok -> head rest <> Some SPACE -> has_double_space rest = false ->
  has_double_space (tok ++ SPACE :: rest) = false.
Proof.
  intros [Hne Htok] Hhd Hrest.
  induction tok as [|c tok IH]; [congruence|].
  apply Forall_cons in Htok as [Hc Htok].
  apply not_space_ne_SPACE, N.eqb_neq in Hc.
  destruct tok as [|d tok].
  - simpl. rewrite Hc. simpl.
    destruct rest as [|r rest]; [reflexivity|].
    assert (r <> SPACE) as Hr by (intros ->; apply Hhd; reflexivity).
    apply N.eqb_neq in Hr.
    rewrite Hr. exact Hrest.
  - change ((c :: d :: tok) ++ SPACE :: rest)
      with (c :: (d :: tok) ++ SPACE :: rest).
    simpl. simpl in IH. rewrite Hc. simpl.
    apply IH; [discriminate | exact Htok].
Qed.

Lemma has_double_space_token (tok : pystr) :
  Forall not_space tok -> has_double_space tok = false.
Proof.
  induction tok as [|c tok IH]; intros Htok; [reflexivity|].
  apply Forall_cons in Htok as [Hc Htok].
  apply not_space_ne_SPACE, N.eqb_neq in Hc.
  destruct tok; [reflexivity|].
  simpl. rewrite Hc. simpl. apply IH, Htok.
Qed.

Lemma head_join_tokens (toks : list pystr) :
  Forall token toks -> head (join [SPACE] toks) <> Some SPACE.
Proof.
  intros Htoks. destruct toks as [|p ps]; [discriminate|].
  apply Forall_cons in Htoks as [[Hne Hp] _].
  destruct p as [|c p]; [congruence|].
  apply Forall_cons in Hp as [Hc _].
  apply not_space_ne_SPACE in Hc.
  destruct ps; simpl; intros Heq; injection Heq as Heq; contradiction.
Qed.

(** Tokens joined on single spaces have no double space. *)
Lemma has_double_space_join (toks : list pystr) :
  Forall token toks -> has_double_space (join [SPACE] toks) = false.
Proof.
  induction toks as [|p ps IH]; intros Htoks; [reflexivity|].
  apply Forall_cons in Htoks as [Hp Hps].
  destruct ps as [|q ps]; [apply has_double_space_token, Hp|].
  rewrite join_cons by discriminate.
  apply has_double_space_token_app;
    [exact Hp | apply head_join_tokens, Hps | apply IH, Hps].
Qed.

(** What is left of a token that has an ASCII code point is a token. *)
Lemma filter_ascii_token (tok : pystr) :
  token tok -> Exists (fun c => (c < 128)%N) tok ->
  token (List.filter is_ascii tok).
Proof.
  intros [_ Htok] Hex. split.
  - apply Exists_exists in Hex as (c & Hin & Hc).
    intros Hnil.
    assert (In c (List.filter is_ascii tok)) as Hc'
      by (apply List.filter_In; split;
          [apply list_elem_of_In, Hin | apply is_ascii_lt, Hc]).
    rewrite Hnil in Hc'. destruct Hc'.
  - apply Forall_forall. intros c Hc.
    apply list_elem_of_In, List.filter_In in Hc as [Hc _].
    rewrite Forall_forall in Htok. apply Htok, list_elem_of_In, Hc.
Qed.

End StringFacts.

(** ** The text normalizer *)

Section TextNormalizer.

Import Extractor.

Lemma preprocess_text_join (text : pystr) :
  _preprocess_text text
  = join [SPACE] (List.map (List.filter is_ascii) (split text)).
Proof. unfold _preprocess_text. apply filter_ascii_join. Qed.

Lemma preprocess_text_ascii (text : pystr) :
  Forall (fun c => (c < 128)%N) (_preprocess_text text).
Proof.
  unfold _preprocess_text. apply Forall_forall. intros c Hc.
  apply list_elem_of_In, List.filter_In in Hc as [_ Hc].
  apply is_ascii_lt, Hc.
Qed.

Lemma preprocess_text_only_spaces (text : pystr) :
  Forall (fun c => is_space c = true -> c = SPACE) (_preprocess_text text).
Proof.
  rewrite preprocess_text_join. apply Forall_join.
  - constructor; [reflexivity | constructor].
  - apply Forall_forall. intros tok Htok.
    apply list_elem_of_In, List.in_map_iff in Htok as (tok' & <- & Htok').
    apply Forall_forall. intros c Hc.
    apply list_elem_of_In, List.filter_In in Hc as [Hc _].
    pose proof (split_tokens text) as Hall.
    rewrite Forall_forall in Hall.
    destruct (Hall tok' (proj2 (list_elem_of_In _ _) Htok')) as [_ Hns].
    rewrite Forall_forall in Hns.
    specialize (Hns c (proj2 (list_elem_of_In _ _) Hc)).
    unfold not_space in Hns. congruence.
Qed.

Lemma preprocess_text_no_double_space (text : pystr) :
  Forall (Exists (fun c => (c < 128)%N)) (split text) ->
  has_double_space (_preprocess_text text) = false.
Proof.
  intros Hex. rewrite preprocess_text_join. apply has_double_space_join.
  pose proof (split_tokens text) as Htoks.
  induction Htoks as [|tok toks Htok _ IH]; [constructor|].
  apply Forall_cons in Hex as [Hex1 Hex].
  constructor; [apply filter_ascii_token; assumption | apply IH, Hex].
Qed.

Lemma ascii_text_tokens (text : pystr) :
  Forall (fun c => (c < 128)%N) text ->
  Forall (Exists (fun c => (c < 128)%N)) (split text).
Proof.
  intros Hascii.
  pose proof (split_tokens text) as Htoks.
  pose proof (split_from_Forall _ text [] (Forall_nil_2 _) Hascii) as Hall.
  fold (split text) in Hall.
  induction Htoks as [|tok toks [Hne _] _ IH]; [constructor|].
  apply Forall_cons in Hall as [Htok Hall].
  constructor; [|apply IH, Hall].
  destruct tok as [|c tok]; [congruence|].
  apply Forall_cons in Htok as [Hc _]. apply Exists_cons_hd, Hc.
Qed.

(** Claim C4, as amended. [_preprocess_text] collapses the whitespace runs
    of the text to single spaces (dropping the leading and the trailing run:
    it joins on one space the tokens of the text, which are non-empty, free
    of whitespace and together the text without its whitespace) and then
    removes every code point from 128 on. Its output is pure ASCII
    and its only whitespace is the space. It has no double space when every
    whitespace-delimited token of the input keeps an ASCII code point, in
    particular when the input is ASCII; the empty input gives the empty
    output. *)
Theorem preprocess_text_spec (text : pystr) :
  _preprocess_text text = List.filter is_ascii (join [SPACE] (split text))
  /\ Forall token (split text)
  /\ concat (split text) = List.filter (fun c => negb (is_space c)) text
  /\ Forall (fun c => (c < 128)%N) (_preprocess_text text)
  /\ Forall (fun c => is_space c = true -> c = SPACE) (_preprocess_text text)
  /\ (Forall (Exists (fun c => (c < 128)%N)) (split text) ->
      has_double_space (_preprocess_text text) = false)
  /\ (Forall (fun c => (c < 128)%N) text ->
      has_double_space (_preprocess_text text) = false)
  /\ _preprocess_text [] = [].
Proof.
  split; [reflexivity|].
  split; [apply split_tokens|].
  split; [apply concat_split|].
  split; [apply preprocess_text_ascii|].
  split; [apply preprocess_text_only_spaces|].
  split; [apply preprocess_text_no_double_space|].
  split; [|reflexivity].
  intros Hascii. apply preprocess_text_no_double_space, ascii_text_tokens, Hascii.
Qed.

(** Claim C4 as the specification states it fails: in ["a é b"] the token
    ["é"] is removed after the collapse, and its two separating spaces
    become adjacent. *)
Lemma preprocess_text_double_space :
  Exists (fun c => (128 <= c)%N) [97; 32; 233; 32; 98]%N
  /\ _preprocess_text [97; 32; 233; 32; 98]%N = [97; 32; 32; 98]%N
  /\ ~ (forall text : pystr,
          Exists (fun c => (128 <= c)%N) text ->
          has_double_space (_preprocess_text text) = false).
Proof.
  assert (Exists (fun c => (128 <= c)%N) [97; 32; 233; 32; 98]%N) as Hex.
  { apply Exists_cons_tl, Exists_cons_tl, Exists_cons_hd. lia. }
  split; [exact Hex|]. split; [reflexivity|].
  intros Hall. specialize (Hall _ Hex). discriminate Hall.
Qed.

(** Runs of blanks and a newline in an ASCII text. *)
Example preprocess_text_newlines :
  _preprocess_text (py "  Quote   #12
   total") = py "Quote #12 total".
Proof. reflexivity. Qed.

End TextNormalizer.

(** ** The store of prompt configurations *)

Section ConfigStore.

Import Models Examples.

Lemma lookup_exclude_update (p : option Z) (t : ConfigTable) (k : Z) :
  exclude_update_inactive p t !! k
  = (fun r => if decide (Some k = p) then r else deactivate r) <$> t !! k.
Proof.
  unfold exclude_update_inactive. rewrite map_lookup_imap.
  destruct (t !! k); reflexivity.
Qed.

(** After the bulk update only the excluded row can be active. *)
Lemma exclude_update_active (p : option Z) (t : ConfigTable) (k : Z)
    (r : GPTPromptConfig) :
  exclude_update_inactive p t !! k = Some r -> is_active r = true ->
  p = Some k.
Proof.
  rewrite lookup_exclude_update. intros Hk Hr.
  destruct (t !! k) as [r0|]; [|discriminate].
  simpl in Hk. destruct (decide (Some k = p)) as [Heq|_]; [congruence|].
  injection Hk as <-. discriminate Hr.
Qed.

Lemma model_save_cases (o : ConfigObj) (t : ConfigTable) :
  model_save o t = (t, Raise IntegrityError)
  \/ model_save o t
     = (<[save_key o t := fields o]> t,
        Ok (mkObj (Some (save_key o t)) (fields o))).
Proof.
  unfold model_save.
  destruct (name_taken _ _ _); [left | right]; reflexivity.
Qed.

(** Between the two statements of [save] at most one row is active. *)
Lemma exclude_update_at_most_one (p : option Z) (t : ConfigTable) :
  at_most_one_active (exclude_update_inactive p t).
Proof.
  intros k1 k2 r1 r2 H1 H2 A1 A2.
  pose proof (exclude_update_active _ _ _ _ H1 A1).
  pose proof (exclude_update_active _ _ _ _ H2 A2). congruence.
Qed.

Lemma save_preserves (o : ConfigObj) (t : ConfigTable) :
  at_most_one_active t -> at_most_one_active (fst (save o t)).
Proof.
  intros Hinv. unfold save.
  destruct (is_active (fields o)) eqn:Hact.
  - set (t1 := exclude_update_inactive (pk o) t).
    assert (forall k r, t1 !! k = Some r -> is_active r = true ->
                        pk o = Some k) as Hone
      by (intros k r; apply exclude_update_active).
    destruct (model_save_cases o t1) as [-> | ->]; simpl.
    + intros k1 k2 r1 r2 H1 H2 A1 A2.
      pose proof (Hone _ _ H1 A1). pose proof (Hone _ _ H2 A2). congruence.
    + assert (forall k r, <[save_key o t1 := fields o]> t1 !! k = Some r ->
                          is_active r = true -> k = save_key o t1) as Hkey.
      { intros k r Hk Hr.
        destruct (decide (save_key o t1 = k)) as [|Hne]; [congruence|].
        rewrite lookup_insert_ne in Hk by exact Hne.
        specialize (Hone _ _ Hk Hr). unfold save_key. rewrite Hone. reflexivity. }
      intros k1 k2 r1 r2 H1 H2 A1 A2.
      rewrite (Hkey _ _ H1 A1), (Hkey _ _ H2 A2). reflexivity.
  - destruct (model_save_cases o t) as [-> | ->]; simpl; [exact Hinv|].
    intros k1 k2 r1 r2 H1 H2 A1 A2.
    destruct (decide (save_key o t = k1)) as [<-|Hne1].
    { rewrite lookup_insert_eq in H1. congruence. }
    destruct (decide (save_key o t = k2)) as [<-|Hne2].
    { rewrite lookup_insert_eq in H2. congruence. }
    rewrite lookup_insert_ne in H1 by exact Hne1.
    rewrite lookup_insert_ne in H2 by exact Hne2.
    exact (Hinv _ _ _ _ H1 H2 A1 A2).
Qed.

(** A successful save of an active configuration leaves it the only active
    row. *)
Lemma save_active_deactivates_others (o o' : ConfigObj) (t : ConfigTable) :
  is_active (fields o) = true -> snd (save o t) = Ok o' ->
  exists k, pk o' = Some k
    /\ fst (save o t) !! k = Some (fields o)
    /\ forall k' r, fst (save o t) !! k' = Some r -> is_active r = true ->
                    k' = k.
Proof.
  intros Hact. unfold save. rewrite Hact.
  set (t1 := exclude_update_inactive (pk o) t).
  destruct (model_save_cases o t1) as [-> | ->]; simpl; [discriminate|].
  intros [= <-]. exists (save_key o t1). simpl.
  split; [reflexivity|]. split; [apply lookup_insert_eq|].
  intros k r Hk Hr.
  destruct (decide (save_key o t1 = k)) as [|Hne]; [congruence|].
  rewrite lookup_insert_ne in Hk by exact Hne.
  pose proof (exclude_update_active _ _ _ _ Hk Hr) as Hpk.
  unfold save_key. rewrite Hpk. reflexivity.
Qed.

Lemma delete_preserves (k : Z) (t : ConfigTable) :
  at_most_one_active t -> at_most_one_active (delete_config k t).
Proof.
  intros Hinv k1 k2 r1 r2 H1 H2. unfold delete_config in H1, H2.
  apply lookup_delete_Some in H1 as [_ H1].
  apply lookup_delete_Some in H2 as [_ H2].
  exact (Hinv _ _ _ _ H1 H2).
Qed.

Lemma apply_writes_preserve (ws : list write) (t : ConfigTable) :
  at_most_one_active t -> at_most_one_active (apply_writes ws t).
Proof.
  revert t. induction ws as [|w ws IH]; intros t Hinv; [exact Hinv|].
  apply IH. destruct w; [apply save_preserves | apply delete_preserves]; exact Hinv.
Qed.

Lemma empty_at_most_one_active : at_most_one_active ∅.
Proof. intros k1 k2 r1 r2 H1. rewrite lookup_empty in H1. discriminate. Qed.

(** Under the invariant the lookup of the active row finds at most one. *)
Lemma at_most_one_active_size (t : ConfigTable) :
  at_most_one_active t -> (size (active_rows t) <= 1)%nat.
Proof.
  intros Hinv. rewrite <- length_map_to_list.
  pose proof (NoDup_map_to_list (active_rows t)) as Hnd.
  assert (forall k r, (k, r) ∈ map_to_list (active_rows t) ->
                      t !! k = Some r /\ is_active r = true) as Hel.
  { intros k r Hkr. apply elem_of_map_to_list in Hkr.
    unfold active_rows in Hkr. apply map_lookup_filter_Some in Hkr. exact Hkr. }
  destruct (map_to_list (active_rows t)) as [|[k1 r1] [|[k2 r2] l]];
    simpl; [lia | lia |].
  exfalso.
  destruct (Hel k1 r1) as [H1 A1]; [left|].
  destruct (Hel k2 r2) as [H2 A2]; [right; left|].
  assert (k1 = k2) as -> by exact (Hinv _ _ _ _ H1 H2 A1 A2).
  assert (r1 = r2) as -> by congruence.
  apply NoDup_cons in Hnd as [Hnot _]. apply Hnot. left.
Qed.

(** Claim C8. At most one configuration is active at any time: the store
    reached from the empty one by any sequence of saves and deletes has at
    most one active row, every save preserves this (also between its two
    statements), a successful save of an active configuration leaves it the
    only active row, and activating "B"
    while "A" is active leaves exactly "B" active and "A" inactive. *)
Theorem at_most_one_active_config :
  (forall ws, at_most_one_active (apply_writes ws ∅))
  /\ (forall o t, at_most_one_active t -> at_most_one_active (fst (save o t)))
  /\ (forall p t, at_most_one_active (exclude_update_inactive p t))
  /\ (forall o o' t,
        is_active (fields o) = true -> snd (save o t) = Ok o' ->
        exists k, pk o' = Some k
          /\ fst (save o t) !! k = Some (fields o)
          /\ forall k' r, fst (save o t) !! k' = Some r ->
                          is_active r = true -> k' = k)
  /\ (map_to_list (active_rows store_A_active) = [(1, config_A)]
      /\ map_to_list
           (active_rows (fst (save (mkObj (Some 2) config_B) store_A_active)))
         = [(2, config_B)]
      /\ is_active <$> fst (save (mkObj (Some 2) config_B) store_A_active) !! 1
         = Some false).
Proof.
  split; [intros ws; apply apply_writes_preserve, empty_at_most_one_active|].
  split; [intros o t; apply save_preserves|].
  split; [apply exclude_update_at_most_one|].
  split; [intros o o' t; apply save_active_deactivates_others|].
  split; [|split]; vm_compute; reflexivity.
Qed.

End ConfigStore.

(** ** Dates as text *)

Section DateText.

Lemma digits_length (w : nat) (n : N) : length (digits w n) = w.
Proof.
  revert n. induction w as [|w IH]; intros n; [reflexivity|].
  simpl. rewrite length_app, IH. simpl. lia.
Qed.

Lemma digits_is_digit (w : nat) (n : N) : Forall is_digit (digits w n).
Proof.
  revert n. induction w as [|w IH]; intros n; [constructor|].
  cbn [digits]. apply Forall_app. split; [apply IH|].
  constructor; [|constructor]. unfold is_digit.
  assert (n mod 10 < 10)%N as Hlt by (apply N.mod_upper_bound; lia).
  revert Hlt. generalize (n mod 10)%N. intros m Hlt. lia.
Qed.

Lemma decimal_value_snoc (s : pystr) (c : N) :
  decimal_value (s ++ [c]) = (10 * decimal_value s + (c - 48))%N.
Proof. unfold decimal_value. rewrite fold_left_app. reflexivity. Qed.

(** The digits written denote the number, when it fits the width. *)
Lemma decimal_value_digits (w : nat) (n : N) :
  (n < 10 ^ N.of_nat w)%N -> decimal_value (digits w n) = n.
Proof.
  revert n. induction w as [|w IH]; intros n Hn.
  - simpl in Hn. simpl. unfold decimal_value. simpl. lia.
  - cbn [digits]. rewrite decimal_value_snoc.
    rewrite Nat2N.inj_succ, N.pow_succ_r' in Hn.
    rewrite IH by (apply N.Div0.div_lt_upper_bound; exact Hn).
    assert (n mod 10 < 10)%N as Hlt by (apply N.mod_upper_bound; lia).
    pose proof (N.div_mod n 10 ltac:(lia)) as Hdm.
    revert Hlt Hdm. generalize (n mod 10)%N, (n / 10)%N. intros m q Hlt Hdm. lia.
Qed.

(** [strftime_ymd] writes four digits, a dash, two digits, a dash and two
    digits, and the digits denote the year, the month and the day. *)
Lemma strftime_ymd_iso (d : date) :
  exists y m a,
    strftime_ymd d = y ++ py "-" ++ m ++ py "-" ++ a
    /\ length y = 4%nat /\ length m = 2%nat /\ length a = 2%nat
    /\ Forall is_digit y /\ Forall is_digit m /\ Forall is_digit a
    /\ (0 <= year d <= 9999 -> Z.of_N (decimal_value y) = year d)
    /\ (0 <= month d <= 99 -> Z.of_N (decimal_value m) = month d)
    /\ (0 <= day d <= 99 -> Z.of_N (decimal_value a) = day d).
Proof.
  exists (digits 4 (Z.to_N (year d))), (digits 2 (Z.to_N (month d))),
    (digits 2 (Z.to_N (day d))).
  split; [reflexivity|].
  repeat (split; [apply digits_length|]).
  repeat (split; [apply digits_is_digit|]).
  repeat split; intros Hrange;
    (rewrite decimal_value_digits; [lia | simpl; lia]).
Qed.

Example strftime_ymd_example :
  strftime_ymd (mkDate 2026 11 4) = py "2026-11-04".
Proof. reflexivity. Qed.

End DateText.

(** ** The prompt resolver *)

Section PromptResolver.

Import Models Extractor Examples.

Lemma objects_get_active_none (t : ConfigTable) :
  size (active_rows t) = 0%nat -> objects_get_active t = Raise DoesNotExist.
Proof.
  intros Hsize. unfold objects_get_active.
  apply map_size_empty_iff in Hsize. rewrite Hsize, map_to_list_empty.
  reflexivity.
Qed.

Lemma objects_get_active_many (t : ConfigTable) :
  (1 < size (active_rows t))%nat ->
  objects_get_active t = Raise MultipleObjectsReturned.
Proof.
  intros Hsize. unfold objects_get_active.
  rewrite <- length_map_to_list in Hsize.
  destruct (map_to_list (active_rows t)) as [|[k1 r1] [|[k2 r2] l]];
    simpl in Hsize; [lia | lia | reflexivity].
Qed.

Lemma objects_get_active_one (t : ConfigTable) (r : GPTPromptConfig) :
  objects_get_active t = Ok r ->
  size (active_rows t) = 1%nat
  /\ exists k, t !! k = Some r /\ is_active r = true.
Proof.
  unfold objects_get_active. rewrite <- length_map_to_list.
  destruct (map_to_list (active_rows t)) as [|[k1 r1] [|[k2 r2] l]] eqn:Hl;
    [discriminate | | discriminate].
  intros [= ->]. split; [reflexivity|]. exists k1.
  assert ((k1, r) ∈ map_to_list (active_rows t)) as Hel by (rewrite Hl; left).
  apply elem_of_map_to_list in Hel. unfold active_rows in Hel.
  apply map_lookup_filter_Some in Hel. exact Hel.
Qed.

Lemma get_active_prompt_config_many (t : ConfigTable) :
  (1 < size (active_rows t))%nat ->
  _get_active_prompt_config t = Raise MultipleObjectsReturned.
Proof.
  intros Hsize. unfold _get_active_prompt_config.
  rewrite (objects_get_active_many t Hsize). reflexivity.
Qed.

(** Claim C5. With no active record the resolver returns the hardcoded
    pair of default prompts, the same at every call; with more than one
    active record it raises [MultipleObjectsReturned] to its caller and
    returns the prompts of none of them; with exactly one it returns that
    record's prompts. *)
Theorem get_active_prompt_config_spec (t : ConfigTable) :
  (size (active_rows t) = 0%nat ->
   _get_active_prompt_config t = Ok (default_system_prompt, default_user_prompt))
  /\ (forall t' : ConfigTable,
        size (active_rows t) = 0%nat -> size (active_rows t') = 0%nat ->
        _get_active_prompt_config t = _get_active_prompt_config t')
  /\ ((1 < size (active_rows t))%nat ->
      _get_active_prompt_config t = Raise MultipleObjectsReturned
      /\ forall prompts, _get_active_prompt_config t <> Ok prompts)
  /\ (forall r, objects_get_active t = Ok r ->
        _get_active_prompt_config t = Ok (system_prompt r, user_prompt r)).
Proof.
  assert (forall t0 : ConfigTable, size (active_rows t0) = 0%nat ->
            _get_active_prompt_config t0
            = Ok (default_system_prompt, default_user_prompt)) as Hnone.
  { intros t0 Hsize. unfold _get_active_prompt_config.
    rewrite (objects_get_active_none t0 Hsize). reflexivity. }
  split; [apply Hnone|].
  split; [intros t' H0 H0'; rewrite (Hnone t H0), (Hnone t' H0'); reflexivity|].
  split.
  - intros Hsize. rewrite (get_active_prompt_config_many t Hsize).
    split; [reflexivity | discriminate].
  - intros r Hr. unfold _get_active_prompt_config. rewrite Hr. reflexivity.
Qed.

Example get_active_prompt_config_empty_store :
  _get_active_prompt_config ∅ = Ok (default_system_prompt, default_user_prompt).
Proof. reflexivity. Qed.

Example get_active_prompt_config_two_active :
  _get_active_prompt_config store_two_active = Raise MultipleObjectsReturned.
Proof. vm_compute. reflexivity. Qed.

(** A store kept by [save] never makes the resolver raise. *)
Lemma get_active_prompt_config_invariant (t : ConfigTable) :
  at_most_one_active t -> exists prompts, _get_active_prompt_config t = Ok prompts.
Proof.
  intros Hinv. apply at_most_one_active_size in Hinv.
  unfold _get_active_prompt_config.
  destruct (objects_get_active t) as [r|e] eqn:Hget; [eexists; reflexivity|].
  unfold objects_get_active in Hget. rewrite <- length_map_to_list in Hinv.
  destruct (map_to_list (active_rows t)) as [|[k1 r1] [|[k2 r2] l]];
    simpl in Hinv; [| discriminate | lia].
  injection Hget as <-. eexists; reflexivity.
Qed.

End PromptResolver.

(** ** The extractor *)

Section ExtractorFacts.

Import Models Extractor Examples.

Context `{PyRuntime}.

Lemma extract_quote_data_total (env : Env) (text : pystr) :
  exists q, extract_quote_data env text = Ok q.
Proof.
  unfold extract_quote_data, try_except.
  destruct (extract_body env text); eexists; reflexivity.
Qed.

Lemma extract_quote_data_fallback (env : Env) (text : pystr) :
  raises (extract_body env text) ->
  extract_quote_data env text = Ok (fallback_quote_data (today env)).
Proof. intros [e He]. unfold extract_quote_data. rewrite He. reflexivity. Qed.

Lemma bind_raises {A B} (m : result A) (f : A -> result B) :
  raises m -> raises (m ≫= f).
Proof. intros [e ->]. exists e. reflexivity. Qed.

Lemma bind_Ok {A B} (m : result A) (f : A -> result B) (a : A) :
  m = Ok a -> m ≫= f = f a.
Proof. intros ->. reflexivity. Qed.

Lemma create_extraction_prompt_raises (env : Env) :
  raises (_get_active_prompt_config (config_table env)) ->
  raises (_create_extraction_prompt env).
Proof. apply bind_raises. Qed.

(** Claim C1. [extract_quote_data] returns a [QuoteData] on every input
    and in every environment; when the prompt resolution, the template,
    the formatting, the model call or the parsing raises, the value
    returned is the fallback object: no supplier name, no quote number,
    today's date as [YYYY-MM-DD], no items. The validation itself cannot
    raise: when every step succeeds the validated data is returned. *)
Theorem extract_quote_data_never_raises (env : Env) (text : pystr) :
  (exists q, extract_quote_data env text = Ok q)
  /\ (raises (extract_body env text) ->
      extract_quote_data env text = Ok (fallback_quote_data (today env)))
  /\ (raises (_get_active_prompt_config (config_table env)) ->
      extract_quote_data env text = Ok (fallback_quote_data (today env)))
  /\ (raises (_create_extraction_prompt env) ->
      extract_quote_data env text = Ok (fallback_quote_data (today env)))
  /\ (forall prompt,
        _create_extraction_prompt env = Ok prompt ->
        raises (format_messages env prompt (get_format_instructions env)
                                (_preprocess_text text)) ->
        extract_quote_data env text = Ok (fallback_quote_data (today env)))
  /\ (forall prompt formatted,
        _create_extraction_prompt env = Ok prompt ->
        format_messages env prompt (get_format_instructions env)
                        (_preprocess_text text) = Ok formatted ->
        raises (llm_invoke env formatted) ->
        extract_quote_data env text = Ok (fallback_quote_data (today env)))
  /\ (forall prompt formatted response,
        _create_extraction_prompt env = Ok prompt ->
        format_messages env prompt (get_format_instructions env)
                        (_preprocess_text text) = Ok formatted ->
        llm_invoke env formatted = Ok response ->
        raises (parser_parse env response) ->
        extract_quote_data env text = Ok (fallback_quote_data (today env)))
  /\ (forall prompt formatted response quote_data,
        _create_extraction_prompt env = Ok prompt ->
        format_messages env prompt (get_format_instructions env)
                        (_preprocess_text text) = Ok formatted ->
        llm_invoke env formatted = Ok response ->
        parser_parse env response = Ok quote_data ->
        extract_quote_data env text
        = Ok (_validate_quote_data (today env) quote_data))
  /\ fallback_quote_data (today env)
     = mkQuote None None (Some (strftime_ymd (today env))) []
  /\ (exists y m a,
        strftime_ymd (today env) = y ++ py "-" ++ m ++ py "-" ++ a
        /\ length y = 4%nat /\ length m = 2%nat /\ length a = 2%nat
        /\ Forall is_digit y /\ Forall is_digit m /\ Forall is_digit a
        /\ (0 <= year (today env) <= 9999 ->
            Z.of_N (decimal_value y) = year (today env))
        /\ (0 <= month (today env) <= 99 ->
            Z.of_N (decimal_value m) = month (today env))
        /\ (0 <= day (today env) <= 99 ->
            Z.of_N (decimal_value a) = day (today env))).
Proof.
  split; [apply extract_quote_data_total|].
  split; [apply extract_quote_data_fallback|].
  split.
  { intros Hr. apply extract_quote_data_fallback.
    unfold extract_body. apply bind_raises, create_extraction_prompt_raises, Hr. }
  split.
  { intros Hr. apply extract_quote_data_fallback.
    unfold extract_body. apply bind_raises, Hr. }
  split.
  { intros prompt Hp Hr. apply extract_quote_data_fallback.
    unfold extract_body. rewrite (bind_Ok _ _ _ Hp). apply bind_raises, Hr. }
  split.
  { intros prompt formatted Hp Hf Hr. apply extract_quote_data_fallback.
    unfold extract_body. rewrite (bind_Ok _ _ _ Hp), (bind_Ok _ _ _ Hf).
    apply bind_raises, Hr. }
  split.
  { intros prompt formatted response Hp Hf Hl Hr.
    apply extract_quote_data_fallback. unfold extract_body.
    rewrite (bind_Ok _ _ _ Hp), (bind_Ok _ _ _ Hf), (bind_Ok _ _ _ Hl).
    apply bind_raises, Hr. }
  split; [|split; [reflexivity | apply strftime_ymd_iso]].
  intros prompt formatted response quote_data Hp Hf Hl Hq.
  unfold extract_quote_data, extract_body.
  rewrite (bind_Ok _ _ _ Hp), (bind_Ok _ _ _ Hf), (bind_Ok _ _ _ Hl),
    (bind_Ok _ _ _ Hq).
  reflexivity.
Qed.

(** Claim C10. With more than one active configuration the resolver
    raises [MultipleObjectsReturned], and [extract_quote_data] absorbs it:
    its caller receives the fallback object. *)
Theorem extract_quote_data_multiple_active (env : Env) (text : pystr) :
  (1 < size (active_rows (config_table env)))%nat ->
  _get_active_prompt_config (config_table env) = Raise MultipleObjectsReturned
  /\ extract_body env text = Raise MultipleObjectsReturned
  /\ extract_quote_data env text = Ok (fallback_quote_data (today env))
  /\ supplier_name (fallback_quote_data (today env)) = None
  /\ quote_number (fallback_quote_data (today env)) = None
  /\ quote_date (fallback_quote_data (today env))
     = Some (strftime_ymd (today env))
  /\ items (fallback_quote_data (today env)) = [].
Proof.
  intros Hsize.
  pose proof (get_active_prompt_config_many _ Hsize) as Hres.
  assert (extract_body env text = Raise MultipleObjectsReturned) as Hbody.
  { unfold extract_body, _create_extraction_prompt. rewrite Hres. reflexivity. }
  split; [exact Hres|]. split; [exact Hbody|].
  split; [|repeat split].
  unfold extract_quote_data. rewrite Hbody. reflexivity.
Qed.

End ExtractorFacts.

(** The extractor run on concrete environments: a model call that fails,
    an output the parser rejects, and a run in which every step succeeds. *)
Example extract_quote_data_llm_down :
  @Extractor.extract_quote_data Examples.example_runtime
    (Examples.env_llm_down Examples.store_A_active) (py "Quote Q-1")
  = Ok (Extractor.mkQuote None None (Some (py "2026-11-04")) []).
Proof. vm_compute. reflexivity. Qed.

Example extract_quote_data_bad_output :
  @Extractor.extract_quote_data Examples.example_runtime
    (Examples.env_bad_output ∅) (py "Quote Q-1")
  = Ok (Extractor.mkQuote None None (Some (py "2026-11-04")) []).
Proof. vm_compute. reflexivity. Qed.

Example extract_quote_data_ok :
  @Extractor.extract_quote_data Examples.example_runtime
    (Examples.env_ok Examples.store_A_active) (py "Quote Q-1")
  = Ok (Extractor.mkQuote (Some (py "ACME")) (Some (py "Q-1"))
          (Some (py "2024-03-17"))
          [Extractor.mkItem (Some (py "P-100")) (Some (py "Bolt"))
             (Some 5%float) (Some 2.5%float) (Some (py "EA"))]).
Proof. vm_compute. reflexivity. Qed.

(** Claim C10 run on a store with two active rows. *)
Lemma extract_quote_data_multiple_active_witness :
  (1 < size (Models.active_rows
               (Extractor.config_table
                  (Examples.env_ok Examples.store_two_active))))%nat
  /\ @Extractor.extract_quote_data Examples.example_runtime
       (Examples.env_ok Examples.store_two_active) (py "Quote Q-1")
     = Ok (Extractor.fallback_quote_data (mkDate 2026 11 4)).
Proof.
  assert (1 < size (Models.active_rows
                      (Extractor.config_table
                         (Examples.env_ok Examples.store_two_active))))%nat
    as Hsize by (vm_compute; lia).
  split; [exact Hsize|].
  exact (proj1 (proj2 (proj2
    (@extract_quote_data_multiple_active Examples.example_runtime
       (Examples.env_ok Examples.store_two_active) (py "Quote Q-1") Hsize)))).
Defined.

(** ** Post-validation of the items *)

Section Validation.

Import Extractor Examples.

Context `{PyRuntime}.

Lemma lstrip_left_trimmed (s : pystr) : left_trimmed (lstrip s).
Proof.
  induction s as [|c s IH]; simpl; [exact I|].
  destruct (is_space c) eqn:Hc; [exact IH | exact Hc].
Qed.

Lemma lstrip_id (s : pystr) : left_trimmed s -> lstrip s = s.
Proof.
  destruct s as [|c s]; [reflexivity|]. simpl. unfold not_space.
  intros ->. reflexivity.
Qed.

Lemma lstrip_suffix (s : pystr) : exists t, s = t ++ lstrip s.
Proof.
  induction s as [|c s [t IH]]; [exists []; reflexivity|].
  simpl. destruct (is_space c).
  - exists (c :: t). simpl. congruence.
  - exists []. reflexivity.
Qed.

Lemma rstrip_prefix (s : pystr) : exists t, s = rstrip s ++ t.
Proof.
  unfold rstrip. destruct (lstrip_suffix (rev s)) as [t Ht].
  exists (rev t). rewrite <- rev_app_distr, <- Ht, rev_involutive. reflexivity.
Qed.

Lemma rstrip_left_trimmed (s : pystr) :
  left_trimmed s -> left_trimmed (rstrip s).
Proof.
  intros Hs. destruct (rstrip_prefix s) as [t Ht].
  destruct (rstrip s) as [|c s'] eqn:Hr; [exact I|].
  rewrite Ht in Hs. exact Hs.
Qed.

Lemma rstrip_idem (s : pystr) : rstrip (rstrip s) = rstrip s.
Proof.
  unfold rstrip. rewrite rev_involutive.
  rewrite (lstrip_id (lstrip (rev s))) by apply lstrip_left_trimmed.
  reflexivity.
Qed.

(** [strip] leaves nothing to strip. *)
Lemma strip_trimmed (s : pystr) :
  lstrip (strip s) = strip s /\ rstrip (strip s) = strip s.
Proof.
  unfold strip. split; [|apply rstrip_idem].
  apply lstrip_id, rstrip_left_trimmed, lstrip_left_trimmed.
Qed.

Lemma upper_ascii_idem (s : pystr) :
  Forall (fun c => (c < 128)%N) s -> upper (upper s) = upper s.
Proof.
  induction s as [|c s IH]; intros Hs; [reflexivity|].
  apply Forall_cons in Hs as [Hc Hs].
  change (upper (c :: s)) with (upper_char c ++ upper s).
  assert (upper_char c
          = [if ((97 <=? c) && (c <=? 122))%N then (c - 32)%N else c]) as ->.
  { unfold upper_char.
    destruct ((97 <=? c) && (c <=? 122))%N; [reflexivity|].
    apply is_ascii_lt in Hc. rewrite Hc. reflexivity. }
  simpl. rewrite (IH Hs). f_equal.
  unfold upper_char.
  destruct ((97 <=? c) && (c <=? 122))%N eqn:Hlow.
  - apply andb_prop in Hlow as [H1 H2].
    apply N.leb_le in H1. apply N.leb_le in H2.
    assert ((97 <=? c - 32)%N = false) as -> by (apply N.leb_gt; lia).
    simpl. assert (is_ascii (c - 32) = true) as ->
      by (apply is_ascii_lt; lia).
    reflexivity.
  - rewrite Hlow. apply is_ascii_lt in Hc. rewrite Hc. reflexivity.
Qed.

(** What [validate_item] does to an item: the numbers lose their sign; the
    unit is ["EA"] when it was missing or empty, and otherwise the
    upper-cased, stripped text, which has nothing left to strip. *)
Lemma validate_item_fields (item : QuoteItem) :
  quantity (validate_item item) = PrimFloat.abs <$> quantity item
  /\ unit_price (validate_item item) = PrimFloat.abs <$> unit_price item
  /\ item_number (validate_item item) = item_number item
  /\ description (validate_item item) = description item
  /\ exists u, unit_of_measure (validate_item item) = Some u
       /\ lstrip u = u /\ rstrip u = u
       /\ (truthy (unit_of_measure item) = false -> u = py "EA")
       /\ (forall s, unit_of_measure item = Some s -> s <> [] ->
                     u = strip (upper s)).
Proof.
  split; [destruct item as [? ? [q|] ? ?]; reflexivity|].
  split; [destruct item as [? ? ? [p|] ?]; reflexivity|].
  split; [reflexivity|]. split; [reflexivity|].
  destruct item as [n d q p [[|c s]|]]; simpl.
  - exists (py "EA"). repeat split; try reflexivity. intros s [= <-]. congruence.
  - exists (strip (upper (c :: s))).
    destruct (strip_trimmed (upper (c :: s))) as [Hl Hr].
    split; [reflexivity|]. split; [exact Hl|]. split; [exact Hr|].
    split; [discriminate|]. intros s' [= <-] _. reflexivity.
  - exists (py "EA"). repeat split; try reflexivity. discriminate.
Qed.

(** The item of the specification's test: quantity [-5], no unit. *)
Example validate_item_minus_five :
  validate_item item_minus_five
  = mkItem (Some (py "P-100")) (Some (py "Bolt")) (Some 5%float)
           (Some 2.5%float) (Some (py "EA")).
Proof. reflexivity. Qed.

(** Claim C6 at a unit of measure that is one blank: the test
    [if item.unit_of_measure] passes, the text is stripped, and the item
    leaves the validation with an empty unit of measure. *)
Theorem validate_item_blank_unit_of_measure (now : date) :
  unit_of_measure item_blank_unit = Some [SPACE]
  /\ unit_of_measure (validate_item item_blank_unit) = Some []
  /\ List.map unit_of_measure
       (items (_validate_quote_data now
                 (mkQuote None None None [item_blank_unit; item_minus_five])))
     = [Some []; Some (py "EA")].
Proof. repeat split. Qed.

End Validation.

(** ** The index aligner *)

Section IndexAligner.

Import Models Examples.

Lemma date_leb_refl (d : date) : date_leb d d = true.
Proof. unfold date_leb. rewrite !Z.eqb_refl, Z.leb_refl, !orb_true_r. reflexivity. Qed.

Lemma date_leb_iff (d1 d2 : date) :
  date_leb d1 d2 = true
  <-> year d1 < year d2
      \/ year d1 = year d2
         /\ (month d1 < month d2
             \/ month d1 = month d2 /\ day d1 <= day d2).
Proof.
  unfold date_leb.
  rewrite !orb_true_iff, !andb_true_iff, !orb_true_iff, !andb_true_iff.
  rewrite !Z.ltb_lt, !Z.eqb_eq, Z.leb_le. reflexivity.
Qed.

Lemma date_leb_trans (d1 d2 d3 : date) :
  date_leb d1 d2 = true -> date_leb d2 d3 = true -> date_leb d1 d3 = true.
Proof. rewrite !date_leb_iff. lia. Qed.

Lemma date_leb_total (d1 d2 : date) :
  date_leb d1 d2 = true \/ date_leb d2 d1 = true.
Proof. rewrite !date_leb_iff. lia. Qed.

#[local] Instance date_desc_trans : Transitive date_desc.
Proof.
  intros r1 r2 r3. unfold date_desc.
  destruct (observation_date r1), (observation_date r2),
    (observation_date r3); try tauto.
  intros H12 H23. exact (date_leb_trans _ _ _ H23 H12).
Qed.

#[local] Instance date_desc_total : Total date_desc.
Proof.
  intros r1 r2. unfold date_desc.
  destruct (observation_date r1) as [d1|], (observation_date r2) as [d2|];
    try tauto.
  destruct (date_leb_total d1 d2); tauto.
Qed.

(** The head of the ordered result is one of the rows and comes before
    every row. *)
Lemma head_merge_sort_desc (l : list FredAero) (r : FredAero) :
  head (merge_sort date_desc l) = Some r ->
  r ∈ l /\ forall r', r' ∈ l -> r' = r \/ date_desc r r'.
Proof.
  intros Hhd.
  pose proof (merge_sort_Permutation date_desc l) as Hperm.
  pose proof (StronglySorted_merge_sort date_desc l) as Hsorted.
  destruct (merge_sort date_desc l) as [|x rest]; [discriminate|].
  injection Hhd as ->.
  split; [rewrite <- Hperm; left|].
  intros r' Hr'. rewrite <- Hperm in Hr'.
  apply elem_of_cons in Hr' as [->|Hr']; [left; reflexivity|right].
  apply StronglySorted_inv in Hsorted as [_ Hall].
  rewrite Forall_forall in Hall. apply Hall, Hr'.
Qed.

Lemma head_merge_sort_None (l : list FredAero) :
  head (merge_sort date_desc l) = None -> l = [].
Proof.
  intros Hhd.
  pose proof (merge_sort_Permutation date_desc l) as Hperm.
  destruct (merge_sort date_desc l); [|discriminate].
  symmetry in Hperm. apply Permutation_nil_r in Hperm. exact Hperm.
Qed.

Lemma elem_of_lte_filter (d : date) (table : list FredAero) (r : FredAero) :
  r ∈ List.filter (observation_date_lte d) table
  <-> r ∈ table
      /\ exists od, observation_date r = Some od /\ date_leb od d = true.
Proof.
  rewrite list_elem_of_In, List.filter_In, <- list_elem_of_In.
  unfold observation_date_lte.
  split; intros [Hin Hd]; (split; [exact Hin|]).
  - destruct (observation_date r) as [od|]; [|discriminate].
    exists od. split; [reflexivity | exact Hd].
  - destruct Hd as (od & -> & Hd). exact Hd.
Qed.

(** Claim C7. The lookup aligns the target date to the first day of its
    month and returns an observation of the table dated on or before that
    day such that no observation on or before that day is dated later; it
    returns nothing exactly when no observation is dated on or before that
    day. For 2024-03-17 the observation of 2024-03-01 is returned when
    present, the one of 2024-02-01 when it is the only one, and nothing
    when the only observation is later. *)
Theorem get_index_for_date_spec (table : list FredAero) (target_date : date) :
  _get_first_of_month target_date
  = mkDate (year target_date) (month target_date) 1
  /\ match get_index_for_date table target_date with
     | Some r =>
         r ∈ table
         /\ exists d, observation_date r = Some d
              /\ date_leb d (_get_first_of_month target_date) = true
              /\ forall r' d', r' ∈ table -> observation_date r' = Some d' ->
                   date_leb d' (_get_first_of_month target_date) = true ->
                   date_leb d' d = true
     | None =>
         forall r' d', r' ∈ table -> observation_date r' = Some d' ->
           date_leb d' (_get_first_of_month target_date) = false
     end
  /\ get_index_for_date [obs_null; obs_feb; obs_apr; obs_mar] (mkDate 2024 3 17)
     = Some obs_mar
  /\ get_index_for_date [obs_feb] (mkDate 2024 3 17) = Some obs_feb
  /\ get_index_for_date [obs_null; obs_apr] (mkDate 2024 3 17) = None.
Proof.
  split; [reflexivity|].
  split; [|repeat split; vm_compute; reflexivity].
  unfold get_index_for_date.
  set (fom := _get_first_of_month target_date).
  destruct (head _) as [r|] eqn:Hhd.
  - apply head_merge_sort_desc in Hhd as [Hin Hmax].
    apply elem_of_lte_filter in Hin as (Hin & d & Hd & Hle).
    split; [exact Hin|]. exists d. split; [exact Hd|]. split; [exact Hle|].
    intros r' d' Hin' Hd' Hle'.
    destruct (Hmax r') as [->|Hdesc].
    + apply elem_of_lte_filter. split; [exact Hin'|]. exists d'. split; assumption.
    + assert (d' = d) as -> by congruence. apply date_leb_refl.
    + unfold date_desc in Hdesc. rewrite Hd, Hd' in Hdesc. exact Hdesc.
  - apply head_merge_sort_None in Hhd.
    intros r' d' Hin' Hd'.
    destruct (date_leb d' fom) eqn:Hle; [|reflexivity].
    assert (r' ∈ List.filter (observation_date_lte fom) table) as Hf
      by (apply elem_of_lte_filter; split; [exact Hin'|]; exists d'; split; assumption).
    rewrite Hhd in Hf. inversion Hf.
Qed.

End IndexAligner.

(** ** The price series fetcher *)

Section Fetcher.

Import Analyzer Examples.

Variables (query : Source) (item_number : pystr) (cutoff_date : datetime).

(** The loop stops at the first unit whose query raises. *)
Lemma fetch_loop_raises (pre post : list pystr) (unit : pystr) (e : exn)
    (all_data : list (list PriceRow)) :
  (forall u, u ∈ pre -> exists rows, query u item_number cutoff_date = Ok rows) ->
  query unit item_number cutoff_date = Raise e ->
  fetch_loop query item_number cutoff_date (pre ++ unit :: post) all_data
  = Raise e.
Proof.
  revert all_data. induction pre as [|u pre IH]; intros all_data Hpre Hunit; simpl.
  - rewrite Hunit. reflexivity.
  - destruct (Hpre u) as [rows Hrows]; [left|].
    rewrite Hrows. simpl. apply IH; [|exact Hunit].
    intros u' Hu'. apply Hpre. right. exact Hu'.
Qed.

(** When every query answers, the loop appends one frame per unit. *)
Lemma fetch_loop_ok (units : list pystr)
    (rows_of : pystr -> list (float * datetime))
    (all_data : list (list PriceRow)) :
  (forall u, u ∈ units -> query u item_number cutoff_date = Ok (rows_of u)) ->
  fetch_loop query item_number cutoff_date units all_data
  = Ok (all_data ++ List.map (fun u => tag_rows u (rows_of u)) units).
Proof.
  revert all_data. induction units as [|u units IH]; intros all_data Hall; simpl.
  - rewrite app_nil_r. reflexivity.
  - rewrite (Hall u) by left. simpl.
    rewrite IH by (intros u' Hu'; apply Hall; right; exact Hu').
    rewrite <- app_assoc. reflexivity.
Qed.

End Fetcher.

Section FetcherClaims.

Import Analyzer Examples.

(** Claim C9, as amended. A failing source query is not handled: the fetch
    raises the exception of the first unit, in enumeration order, whose
    query fails, and returns neither the rows of the other units nor a
    list of the failed ones. Only when every query answers does it return
    the rows, tagged with their unit and appended in enumeration order. *)
Theorem fetch_historical_prices_propagates (self : PriceAnalyzer)
    (query : Source) (now : datetime) (item_number : pystr) (lookback_days : Z) :
  (forall pre unit post e,
     business_units self = pre ++ unit :: post ->
     (forall u, u ∈ pre ->
        exists rows,
          query u item_number (now - timedelta_days lookback_days) = Ok rows) ->
     query unit item_number (now - timedelta_days lookback_days) = Raise e ->
     fetch_historical_prices self query now item_number lookback_days = Raise e)
  /\ (forall rows_of,
        (forall u, u ∈ business_units self ->
           query u item_number (now - timedelta_days lookback_days)
           = Ok (rows_of u)) ->
        fetch_historical_prices self query now item_number lookback_days
        = Ok (concat (List.map (fun u => tag_rows u (rows_of u))
                               (business_units self))))
  /\ fetch_historical_prices default_analyzer source_b_down 0 (py "P-100") 365
     = Raise DatabaseError
  /\ fetch_historical_prices default_analyzer source_all_up 0 (py "P-100") 365
     = Ok [mkRow (py "business_unit_a") 10%float 0;
           mkRow (py "business_unit_c") 10%float 0].
Proof.
  split.
  { intros pre unit post e Hunits Hpre Hunit.
    unfold fetch_historical_prices. rewrite Hunits.
    rewrite (fetch_loop_raises _ _ _ pre post unit e [] Hpre Hunit).
    reflexivity. }
  split; [|split; vm_compute; reflexivity].
  intros rows_of Hall. unfold fetch_historical_prices.
  rewrite (fetch_loop_ok _ _ _ _ rows_of [] Hall). simpl.
  destruct (List.map _ _); reflexivity.
Qed.

(** Claim C9 as the specification states it fails: units a and c answer,
    unit b raises, and the fetch raises instead of continuing. *)
Lemma fetch_historical_prices_fails_outright :
  source_b_down (py "business_unit_a") (py "P-100") (0 - timedelta_days 365)
  = Ok [(10%float, 0)]
  /\ source_b_down (py "business_unit_b") (py "P-100") (0 - timedelta_days 365)
     = Raise DatabaseError
  /\ source_b_down (py "business_unit_c") (py "P-100") (0 - timedelta_days 365)
     = Ok [(10%float, 0)]
  /\ fetch_historical_prices default_analyzer source_b_down 0 (py "P-100") 365
     = Raise DatabaseError
  /\ ~ (forall (query : Source) (now : datetime) (item_number : pystr)
               (lookback_days : Z),
          (exists u rows,
             u ∈ business_units default_analyzer
             /\ query u item_number (now - timedelta_days lookback_days)
                = Ok rows) ->
          exists rows,
            fetch_historical_prices default_analyzer query now item_number
                                    lookback_days = Ok rows).
Proof.
  assert (fetch_historical_prices default_analyzer source_b_down 0
            (py "P-100") 365 = Raise DatabaseError) as Hfetch
    by (vm_compute; reflexivity).
  split; [vm_compute; reflexivity|].
  split; [vm_compute; reflexivity|].
  split; [vm_compute; reflexivity|].
  split; [exact Hfetch|].
  intros Hcontinue.
  destruct (Hcontinue source_b_down 0 (py "P-100") 365) as [rows Hrows].
  - exists (py "business_unit_a"), [(10%float, 0)].
    split; [left | vm_compute; reflexivity].
  - rewrite Hfetch in Hrows. discriminate Hrows.
Qed.

End FetcherClaims.

(** ** The series normalizer *)

Section Normalizer.

Import Analyzer.

Context {A : Type} `{SeriesNum A}.

Lemma normalize_series_length (data : list A) :
  length (_normalize_series data) = length data.
Proof.
  destruct data as [|v0 data]; [reflexivity|].
  unfold _normalize_series. destruct (num_eq_zero v0).
  - apply repeat_length.
  - apply length_map.
Qed.

Lemma normalize_series_lookup (data : list A) (v0 vi : A) (i : nat) :
  head data = Some v0 -> num_eq_zero v0 = false -> data !! i = Some vi ->
  _normalize_series data !! i = Some (percent_change v0 vi).
Proof.
  intros Hhd Hnz Hi. destruct data as [|x data]; [discriminate|].
  injection Hhd as ->. unfold _normalize_series. rewrite Hnz.
  change (List.map ?f ?l) with (f <$> l).
  rewrite list_lookup_fmap, Hi. reflexivity.
Qed.

Lemma normalize_series_zero (data : list A) (v0 : A) :
  head data = Some v0 -> num_eq_zero v0 = true ->
  _normalize_series data = repeat num_zero (length data).
Proof.
  intros Hhd Hz. destruct data as [|x data]; [discriminate|].
  injection Hhd as ->. unfold _normalize_series. rewrite Hz. reflexivity.
Qed.

End Normalizer.

Section NormalizerClaim.

Import Analyzer.

(** Claim C2. The normalized series has the length of the series; it is
    empty for the empty series; when the first value equals zero it is all
    zeros; otherwise its value at every position [i] is
    [(v[i] - v[0]) / v[0] * 100]. On floats, [100, 110, 90] gives
    [0, 10, -10] and [0, 5, 10] gives [0, 0, 0]. *)
Theorem normalize_series_spec (A : Type) `{SeriesNum A} (v : list A) :
  _normalize_series ([] : list A) = []
  /\ length (_normalize_series v) = length v
  /\ (forall v0, head v = Some v0 -> num_eq_zero v0 = true ->
        _normalize_series v = repeat num_zero (length v))
  /\ (forall v0 vi i,
        head v = Some v0 -> num_eq_zero v0 = false -> v !! i = Some vi ->
        _normalize_series v !! i
        = Some (num_mul (num_div (num_sub vi v0) v0) num_hundred))
  /\ _normalize_series [100; 110; 90]%float = [0; 10; -10]%float
  /\ _normalize_series [0; 5; 10]%float = [0; 0; 0]%float.
Proof.
  split; [reflexivity|].
  split; [apply normalize_series_length|].
  split; [intros v0; apply normalize_series_zero|].
  split; [intros v0 vi i; apply normalize_series_lookup|].
  split; vm_compute; reflexivity.
Qed.

End NormalizerClaim.

(** ** The statistics *)

Section Statistics.

Import Analyzer Examples.

Variable agg : SeriesAgg.

Lemma elem_of_recent_rows (now : datetime) (data : list PriceRow) (r : PriceRow) :
  r ∈ recent_rows now data
  <-> r ∈ data /\ now - timedelta_days 90 <= purchase_date r.
Proof.
  unfold recent_rows.
  rewrite list_elem_of_In, List.filter_In, <- list_elem_of_In, Z.leb_le.
  reflexivity.
Qed.

Lemma elem_of_previous_rows (now_hi now_lo : datetime) (data : list PriceRow)
    (r : PriceRow) :
  r ∈ previous_rows now_hi now_lo data
  <-> r ∈ data
      /\ now_lo - timedelta_days 180 <= purchase_date r
         < now_hi - timedelta_days 90.
Proof.
  unfold previous_rows.
  rewrite list_elem_of_In, List.filter_In, <- list_elem_of_In.
  rewrite andb_true_iff, Z.ltb_lt, Z.leb_le. tauto.
Qed.

(** The trend for any readings of the clock: each selection is made with
    the reading taken when it is evaluated. *)
Lemma calculate_price_statistics_trend (clock : nat -> datetime)
    (data : list PriceRow) :
  recent_trend (calculate_price_statistics agg clock data)
  = match recent_rows (clock 0%nat) data,
          previous_rows (clock 1%nat) (clock 2%nat) data with
    | _ :: _, _ :: _ =>
        let recent_avg :=
          series_mean agg (prices (recent_rows (clock 0%nat) data)) in
        let previous_avg :=
          series_mean agg
            (prices (previous_rows (clock 1%nat) (clock 2%nat) data)) in
        Some ((recent_avg - previous_avg) / previous_avg * 100)%float
    | _, _ => None
    end.
Proof. destruct data; reflexivity. Qed.

(** The statistics of a run in which the three readings of the clock are
    one instant [now]: the recent rows are those with
    [now - 90d <= purchase_date] and the prior rows those with
    [now - 180d <= purchase_date < now - 90d]. When both selections are
    non-empty the trend is [(mean recent - mean prior) / mean prior * 100],
    and when one is empty the trend is null; on empty input every field is
    null. Over 120 days with two purchases in each window the trend is
    [37.5]; with purchases only in the last 90 days it is null. *)
Theorem calculate_price_statistics_spec (now : datetime) (data : list PriceRow) :
  (forall r, r ∈ recent_rows now data
             <-> r ∈ data /\ now - timedelta_days 90 <= purchase_date r)
  /\ (forall r, r ∈ previous_rows now now data
                <-> r ∈ data
                    /\ now - timedelta_days 180 <= purchase_date r
                       < now - timedelta_days 90)
  /\ (recent_rows now data <> [] -> previous_rows now now data <> [] ->
      recent_trend (calculate_price_statistics agg (fun _ => now) data)
      = Some ((series_mean agg (prices (recent_rows now data))
               - series_mean agg (prices (previous_rows now now data)))
              / series_mean agg (prices (previous_rows now now data))
              * 100)%float)
  /\ (recent_rows now data = [] \/ previous_rows now now data = [] ->
      recent_trend (calculate_price_statistics agg (fun _ => now) data) = None)
  /\ (forall clock,
        calculate_price_statistics agg clock []
        = mkStats None None None None None)
  /\ (data <> [] ->
      min_price (calculate_price_statistics agg (fun _ => now) data)
      = Some (series_min agg (prices data))
      /\ max_price (calculate_price_statistics agg (fun _ => now) data)
         = Some (series_max agg (prices data))
      /\ avg_price (calculate_price_statistics agg (fun _ => now) data)
         = Some (series_mean agg (prices data))
      /\ price_volatility (calculate_price_statistics agg (fun _ => now) data)
         = Some (series_std agg (prices data)))
  /\ recent_trend
       (calculate_price_statistics example_agg (fun _ => on_day 200)
                                   prices_120_days)
     = Some 37.5%float
  /\ recent_trend
       (calculate_price_statistics example_agg (fun _ => on_day 200)
                                   prices_last_90_days)
     = None.
Proof.
  split; [intros r; apply elem_of_recent_rows|].
  split; [intros r; apply elem_of_previous_rows|].
  split.
  { intros Hrecent Hprior. rewrite calculate_price_statistics_trend.
    destruct (recent_rows now data); [congruence|].
    destruct (previous_rows now now data); [congruence|]. reflexivity. }
  split.
  { intros Hempty. rewrite calculate_price_statistics_trend.
    destruct Hempty as [-> | ->]; [reflexivity|].
    destruct (recent_rows now data); reflexivity. }
  split; [reflexivity|].
  split; [destruct data; [congruence | repeat split]|].
  split; vm_compute; reflexivity.
Qed.

Lemma spec_prior_rows_previous (now : datetime) (data : list PriceRow) :
  spec_prior_rows now data = previous_rows now now data.
Proof.
  unfold spec_prior_rows, previous_rows. apply List.filter_ext.
  intros r. apply andb_comm.
Qed.

(** Read at one instant, the code computes the trend of the
    specification. *)
Lemma calculate_price_statistics_one_instant (now : datetime)
    (data : list PriceRow) :
  recent_trend (calculate_price_statistics agg (fun _ => now) data)
  = spec_recent_trend agg now data.
Proof.
  rewrite calculate_price_statistics_trend. unfold spec_recent_trend.
  rewrite spec_prior_rows_previous. reflexivity.
Qed.

(** One row is never both a recent and a prior row of the same instant. *)
Lemma spec_selections_one_row (now : datetime) (r : PriceRow) :
  spec_recent_rows now [r] = [] \/ spec_prior_rows now [r] = [].
Proof.
  unfold spec_recent_rows, spec_prior_rows. simpl.
  destruct (now - timedelta_days 90 <=? purchase_date r) eqn:Hrecent;
    [|left; reflexivity].
  destruct (purchase_date r <? now - timedelta_days 90) eqn:Hprior.
  - apply Z.leb_le in Hrecent. apply Z.ltb_lt in Hprior. lia.
  - right. rewrite andb_false_r. reflexivity.
Qed.

End Statistics.

Section StatisticsClock.

Import Analyzer Examples.

(** Claim C3 on a run whose clock advances between its readings. The code
    reads [datetime.now()] once for the recent rows and twice more for the
    previous rows. With readings 300 microseconds apart, a purchase dated 90
    days before the first reading and 100 microseconds later satisfies both
    [purchase_date >= now - 90d] (first reading) and
    [purchase_date < now - 90d] (second reading): the frame of this one row
    has it in both selections, and the trend is [0.0]. Relative to any one
    instant the row is in at most one of the two partitions of the claim
    and the trend is null, which is also what the code gives when its
    readings are one instant. *)
Theorem calculate_price_statistics_clock_drift :
  timedelta_days 90 = 7776000000000
  /\ timedelta_days 180 = 15552000000000
  /\ (clock_advancing 0%nat = 1700000000000000
      /\ clock_advancing 1%nat = 1700000000000300
      /\ clock_advancing 2%nat = 1700000000000600)
  /\ purchase_date row_on_boundary = 1692224000000100
  /\ recent_rows (clock_advancing 0%nat) [row_on_boundary] = [row_on_boundary]
  /\ previous_rows (clock_advancing 1%nat) (clock_advancing 2%nat)
                   [row_on_boundary] = [row_on_boundary]
  /\ recent_trend
       (calculate_price_statistics example_agg clock_advancing
                                   [row_on_boundary])
     = Some 0%float
  /\ (forall now,
        spec_recent_rows now [row_on_boundary] = []
        \/ spec_prior_rows now [row_on_boundary] = [])
  /\ (forall agg now, spec_recent_trend agg now [row_on_boundary] = None)
  /\ (forall agg now data,
        recent_trend (calculate_price_statistics agg (fun _ => now) data)
        = spec_recent_trend agg now data).
Proof.
  split; [reflexivity|]. split; [reflexivity|].
  split; [repeat split|]. split; [reflexivity|].
  split; [vm_compute; reflexivity|]. split; [vm_compute; reflexivity|].
  split; [vm_compute; reflexivity|].
  split; [intros now; apply spec_selections_one_row|].
  split; [|intros agg now data; apply calculate_price_statistics_one_instant].
  intros agg now. unfold spec_recent_trend.
  destruct (spec_selections_one_row now row_on_boundary) as [-> | ->];
    [reflexivity|].
  destruct (spec_recent_rows now [row_on_boundary]); reflexivity.
Qed.

End StatisticsClock.

(** * Further properties of the code *)

(** ** The text normalizer, continued *)

Section TextNormalizerMore.

Import Extractor.

Lemma filter_filter_andb {X} (f g : X -> bool) (l : list X) :
  List.filter f (List.filter g l) = List.filter (fun x => g x && f x) l.
Proof.
  induction l as [|x l IH]; [reflexivity|].
  simpl. destruct (g x); simpl; [|exact IH].
  destruct (f x); [f_equal|]; exact IH.
Qed.

(** Joining on spaces adds whitespace only. *)
Lemma filter_not_space_join (toks : list pystr) :
  List.filter (fun c => negb (is_space c)) (join [SPACE] toks)
  = List.filter (fun c => negb (is_space c)) (concat toks).
Proof.
  induction toks as [|p ps IH]; [reflexivity|].
  destruct ps as [|q ps]; [simpl; rewrite app_nil_r; reflexivity|].
  rewrite join_cons by discriminate.
  change (concat (p :: q :: ps)) with (p ++ concat (q :: ps)).
  rewrite !List.filter_app, IH. reflexivity.
Qed.

Lemma length_join_le (sep p : pystr) (ps : list pystr) :
  (length (join sep (p :: ps))
   <= length p + length sep + length (join sep ps))%nat.
Proof.
  destruct ps as [|q ps]; [simpl; lia|].
  rewrite join_cons by discriminate. rewrite !length_app. lia.
Qed.

Lemma length_join_split_from (s cur : pystr) :
  (length (join [SPACE] (split_from cur s)) <= length cur + length s)%nat.
Proof.
  revert cur. induction s as [|c s IH]; intros cur.
  - destruct cur; simpl; [lia|].
    rewrite length_app, length_rev. simpl. lia.
  - simpl split_from. destruct (is_space c).
    + destruct cur as [|x cur].
      * specialize (IH []). simpl in *. lia.
      * pose proof (length_join_le [SPACE] (rev (x :: cur)) (split_from [] s)) as Hle.
        specialize (IH []). rewrite length_rev in Hle. simpl in *. lia.
    + specialize (IH (c :: cur)). simpl in *. lia.
Qed.

(** X1. The normalizer neither invents nor reorders text: apart from the
    separating spaces, its output is exactly the ASCII, non-whitespace code
    points of the input, in their order; and it is never longer than the
    input. *)
Theorem preprocess_text_keeps_content (text : pystr) :
  List.filter (fun c => negb (is_space c)) (_preprocess_text text)
  = List.filter (fun c => is_ascii c && negb (is_space c)) text
  /\ (length (_preprocess_text text) <= length text)%nat.
Proof.
  split.
  - unfold _preprocess_text.
    transitivity (List.filter is_ascii
                    (List.filter (fun c => negb (is_space c))
                                 (join [SPACE] (split text)))).
    { rewrite !filter_filter_andb. apply List.filter_ext.
      intros c. apply andb_comm. }
    rewrite filter_not_space_join, concat_split, !filter_filter_andb.
    apply List.filter_ext. intros c.
    destruct (is_space c), (is_ascii c); reflexivity.
  - unfold _preprocess_text.
    etransitivity; [apply List.filter_length_le|].
    apply (length_join_split_from text []).
Qed.

(** X2. A second pass removes the double spaces the first one can leave:
    the normalizer applied twice gives pure ASCII text without a double
    space, for every input. *)
Theorem preprocess_text_twice (text : pystr) :
  Forall (fun c => (c < 128)%N) (_preprocess_text (_preprocess_text text))
  /\ has_double_space (_preprocess_text (_preprocess_text text)) = false.
Proof.
  split; [apply preprocess_text_ascii|].
  apply preprocess_text_no_double_space, ascii_text_tokens,
    preprocess_text_ascii.
Qed.

End TextNormalizerMore.

(** ** Post-validation, continued *)

Section FloatFacts.

(** [abs] never gives a negative number (it gives NaN for NaN). *)
Lemma abs_not_negative (x : float) :
  PrimFloat.ltb (PrimFloat.abs x) 0%float = false.
Proof.
  rewrite ltb_spec, abs_spec.
  change (Prim2SF 0%float) with (S754_zero false).
  destruct (Prim2SF x) as [[|]| [|] | | [|] m e]; reflexivity.
Qed.

Lemma abs_idem (x : float) :
  PrimFloat.abs (PrimFloat.abs x) = PrimFloat.abs x.
Proof.
  apply Prim2SF_inj. rewrite !abs_spec.
  destruct (Prim2SF x); reflexivity.
Qed.

End FloatFacts.

Section ValidationMore.

Import Models Extractor Examples.

Context `{PyRuntime}.

Lemma strftime_ymd_length (d : date) : length (strftime_ymd d) = 10%nat.
Proof.
  unfold strftime_ymd. rewrite !length_app, !digits_length. reflexivity.
Qed.

Lemma strftime_ymd_dashes (d : date) :
  strftime_ymd d !! 4%nat = Some 45%N /\ strftime_ymd d !! 7%nat = Some 45%N.
Proof.
  unfold strftime_ymd.
  pose proof (digits_length 4 (Z.to_N (year d))) as H4.
  pose proof (digits_length 2 (Z.to_N (month d))) as H2.
  destruct (digits 4 (Z.to_N (year d))) as [|y1 [|y2 [|y3 [|y4 [|]]]]];
    try discriminate.
  destruct (digits 2 (Z.to_N (month d))) as [|m1 [|m2 [|]]]; try discriminate.
  split; reflexivity.
Qed.

Lemma validate_item_validated (item : QuoteItem) :
  validated_item (validate_item item).
Proof.
  destruct (validate_item_fields item)
    as (Hq & Hp & _ & _ & u & Hu & Hl & Hr & _).
  split; [exists u; repeat split; assumption|].
  split.
  - intros q Hq'. rewrite Hq in Hq'.
    destruct (quantity item); [|discriminate].
    injection Hq' as <-. apply abs_not_negative.
  - intros p Hp'. rewrite Hp in Hp'.
    destruct (unit_price item); [|discriminate].
    injection Hp' as <-. apply abs_not_negative.
Qed.

Lemma validate_quote_data_items (now : date) (quote_data : QuoteData) :
  Forall validated_item (items (_validate_quote_data now quote_data)).
Proof.
  simpl. apply Forall_forall. intros item Hitem.
  apply list_elem_of_In, List.in_map_iff in Hitem as (item0 & <- & _).
  apply validate_item_validated.
Qed.

(** X3. For dates from the year 1000 on (today's, and the one the model's
    text parses to): after validation the quote date is absent, empty, or a
    date written as [YYYY-MM-DD] (ten code points, dashes in the fifth and
    the eighth place): the parsed date when the model's text parses,
    today's date when it does not. The model's unparsable text never
    survives. *)
Theorem validate_quote_data_date (now : date) (quote_data : QuoteData) :
  1000 <= year now <= 9999 ->
  (forall text parsed,
     quote_date quote_data = Some text -> strptime_ymd text = Some parsed ->
     1000 <= year parsed <= 9999) ->
  match quote_date quote_data with
  | None => quote_date (_validate_quote_data now quote_data) = None
  | Some [] => quote_date (_validate_quote_data now quote_data) = Some []
  | Some text =>
      exists d,
        quote_date (_validate_quote_data now quote_data)
        = Some (strftime_ymd d)
        /\ 1000 <= year d <= 9999
        /\ length (strftime_ymd d) = 10%nat
        /\ strftime_ymd d !! 4%nat = Some 45%N
        /\ strftime_ymd d !! 7%nat = Some 45%N
        /\ match strptime_ymd text with
           | Some parsed => d = parsed
           | None => d = now
           end
  end.
Proof.
  intros Hnow Hparsed.
  destruct quote_data as [sn qn [[|c text]|] its]; simpl; try reflexivity.
  simpl in Hparsed. specialize (Hparsed (c :: text)).
  destruct (strptime_ymd (c :: text)) as [parsed|].
  - exists parsed. split; [reflexivity|].
    split; [exact (Hparsed parsed eq_refl eq_refl)|].
    split; [exact (strftime_ymd_length parsed)|].
    destruct (strftime_ymd_dashes parsed) as [H4 H7].
    split; [exact H4|]. split; [exact H7 | reflexivity].
  - exists now. split; [reflexivity|]. split; [exact Hnow|].
    split; [exact (strftime_ymd_length now)|].
    destruct (strftime_ymd_dashes now) as [H4 H7].
    split; [exact H4|]. split; [exact H7 | reflexivity].
Qed.

(** X4. The validation keeps the supplier name, the quote number, the
    number and the order of the items, and each item's number and
    description; every item leaves it with a unit of measure that is
    present and has no whitespace at either end, and with a quantity and a
    unit price that are not negative. *)
Theorem validate_quote_data_keeps (now : date) (quote_data : QuoteData) :
  supplier_name (_validate_quote_data now quote_data)
  = supplier_name quote_data
  /\ quote_number (_validate_quote_data now quote_data)
     = quote_number quote_data
  /\ length (items (_validate_quote_data now quote_data))
     = length (items quote_data)
  /\ (forall i item,
        items quote_data !! i = Some item ->
        exists item',
          items (_validate_quote_data now quote_data) !! i = Some item'
          /\ item_number item' = item_number item
          /\ description item' = description item
          /\ validated_item item').
Proof.
  split; [reflexivity|]. split; [reflexivity|].
  split; [simpl; apply length_map|].
  intros i item Hi. exists (validate_item item).
  split.
  - simpl. change (List.map ?f ?l) with (f <$> l).
    rewrite list_lookup_fmap, Hi. reflexivity.
  - split; [reflexivity|]. split; [reflexivity|].
    apply validate_item_validated.
Qed.

End ValidationMore.

Section ValidationIdempotent.

Import Models Extractor Examples.

Context `{PyRuntime}.

Lemma upper_char_ascii (c : N) :
  (c < 128)%N -> exists c', upper_char c = [c'] /\ upper_fixed c'.
Proof.
  intros Hc. unfold upper_fixed, upper_char.
  destruct ((97 <=? c) && (c <=? 122))%N eqn:Hlow.
  - exists (c - 32)%N. split; [reflexivity|].
    apply andb_prop in Hlow as [H1 H2].
    apply N.leb_le in H1. apply N.leb_le in H2.
    assert ((97 <=? c - 32)%N = false) as -> by (apply N.leb_gt; lia).
    simpl. assert (is_ascii (c - 32) = true) as ->
      by (apply is_ascii_lt; lia).
    reflexivity.
  - exists c. apply is_ascii_lt in Hc. rewrite Hlow, Hc. split; reflexivity.
Qed.

Lemma upper_ascii_fixed (s : pystr) :
  Forall (fun c => (c < 128)%N) s -> Forall upper_fixed (upper s).
Proof.
  induction s as [|c s IH]; intros Hs; [constructor|].
  apply Forall_cons in Hs as [Hc Hs].
  change (upper (c :: s)) with (upper_char c ++ upper s).
  destruct (upper_char_ascii c Hc) as (c' & -> & Hfix).
  constructor; [exact Hfix | apply IH, Hs].
Qed.

Lemma upper_of_fixed (u : pystr) : Forall upper_fixed u -> upper u = u.
Proof.
  induction u as [|c u IH]; intros Hu; [reflexivity|].
  apply Forall_cons in Hu as [Hc Hu].
  change (upper (c :: u)) with (upper_char c ++ upper u).
  rewrite Hc, (IH Hu). reflexivity.
Qed.

Lemma Forall_strip (P : N -> Prop) (s : pystr) :
  Forall P s -> Forall P (strip s).
Proof.
  intros Hs. unfold strip.
  destruct (lstrip_suffix s) as [t Ht]. rewrite Ht in Hs.
  apply Forall_app in Hs as [_ Hs].
  destruct (rstrip_prefix (lstrip s)) as [t' Ht']. rewrite Ht' in Hs.
  apply Forall_app in Hs as [Hs _]. exact Hs.
Qed.

Lemma strip_upper_fixed (s : pystr) :
  Forall (fun c => (c < 128)%N) s ->
  strip (upper (strip (upper s))) = strip (upper s).
Proof.
  intros Hs.
  rewrite (upper_of_fixed (strip (upper s)))
    by (apply Forall_strip, upper_ascii_fixed, Hs).
  destruct (strip_trimmed (upper s)) as [Hl Hr].
  unfold strip at 1. rewrite Hl. exact Hr.
Qed.

(** X5. Validating a validated item changes nothing, as long as the unit
    of measure of the item is ASCII and is not made of whitespace only. *)
Theorem validate_item_idempotent (item : QuoteItem) :
  (forall s, unit_of_measure item = Some s ->
             Forall (fun c => (c < 128)%N) s
             /\ (s = [] \/ strip (upper s) <> [])) ->
  validate_item (validate_item item) = validate_item item.
Proof.
  intros Hunit. destruct item as [n d q p u]. unfold validate_item. simpl.
  f_equal.
  - destruct q; [|reflexivity]. f_equal. apply abs_idem.
  - destruct p; [|reflexivity]. f_equal. apply abs_idem.
  - destruct u as [[|c s]|]; [reflexivity | | reflexivity].
    destruct (Hunit (c :: s) eq_refl) as [Hascii [Hnil|Hne]]; [discriminate|].
    pose proof (strip_upper_fixed (c :: s) Hascii) as Hfix.
    change (upper_char c ++ upper s) with (upper (c :: s)).
    destruct (strip (upper (c :: s))) as [|c' u'] eqn:Hu; [congruence|].
    f_equal. exact Hfix.
Qed.

Lemma extract_body_Ok (env : Env) (text : pystr) (q : QuoteData) :
  extract_body env text = Ok q ->
  exists quote_data, q = _validate_quote_data (today env) quote_data.
Proof.
  unfold extract_body.
  destruct (_create_extraction_prompt env) as [prompt|]; simpl; [|discriminate].
  destruct (format_messages env prompt _ _) as [formatted|]; simpl;
    [|discriminate].
  destruct (llm_invoke env formatted) as [response|]; simpl; [|discriminate].
  destruct (parser_parse env response) as [quote_data|]; simpl; [|discriminate].
  intros [= <-]. exists quote_data. reflexivity.
Qed.

(** X6. Whatever the environment does, the quote [extract_quote_data]
    returns has only validated items: each has a unit of measure that is
    present and has no whitespace at either end, and no negative quantity or
    unit price. *)
Theorem extract_quote_data_validated (env : Env) (text : pystr) :
  exists q, extract_quote_data env text = Ok q
            /\ Forall validated_item (items q).
Proof.
  unfold extract_quote_data, try_except.
  destruct (extract_body env text) as [q|e] eqn:Hbody.
  - exists q. split; [reflexivity|].
    apply extract_body_Ok in Hbody as [quote_data ->].
    apply validate_quote_data_items.
  - eexists. split; [reflexivity|]. constructor.
Qed.

End ValidationIdempotent.

(** X3 run on the quote the model returned, dated 2024-03-17. *)
Lemma validate_quote_data_date_witness :
  1000 <= year (mkDate 2026 11 4) <= 9999
  /\ (forall text parsed,
        Extractor.quote_date Examples.quote_from_model = Some text ->
        @strptime_ymd Examples.example_runtime text = Some parsed ->
        1000 <= year parsed <= 9999)
  /\ Extractor.quote_date
       (@Extractor._validate_quote_data Examples.example_runtime
          (mkDate 2026 11 4) Examples.quote_from_model)
     = Some (py "2024-03-17").
Proof.
  assert (1000 <= year (mkDate 2026 11 4) <= 9999) as Hnow by (simpl; lia).
  assert (forall text parsed,
            Extractor.quote_date Examples.quote_from_model = Some text ->
            @strptime_ymd Examples.example_runtime text = Some parsed ->
            1000 <= year parsed <= 9999) as Hparsed.
  { intros text parsed [= <-] Hp. vm_compute in Hp. injection Hp as <-.
    simpl. lia. }
  split; [exact Hnow|]. split; [exact Hparsed|].
  destruct (@validate_quote_data_date Examples.example_runtime
              (mkDate 2026 11 4) Examples.quote_from_model Hnow Hparsed)
    as (d & Hd & _).
  reflexivity.
Defined.

(** X5 run on an item with the unit [" ft "]. *)
Lemma validate_item_idempotent_witness :
  (forall s, Extractor.unit_of_measure Examples.item_lower_unit = Some s ->
             Forall (fun c => (c < 128)%N) s
             /\ (s = [] \/ strip (@upper Examples.example_runtime s) <> []))
  /\ @Extractor.validate_item Examples.example_runtime
       (@Extractor.validate_item Examples.example_runtime
          Examples.item_lower_unit)
     = @Extractor.validate_item Examples.example_runtime
         Examples.item_lower_unit.
Proof.
  assert (forall s, Extractor.unit_of_measure Examples.item_lower_unit = Some s ->
            Forall (fun c => (c < 128)%N) s
            /\ (s = [] \/ strip (@upper Examples.example_runtime s) <> []))
    as Hunit.
  { intros s [= <-]. split.
    - repeat constructor; vm_compute; reflexivity.
    - right. vm_compute. discriminate. }
  split; [exact Hunit|].
  exact (@validate_item_idempotent Examples.example_runtime
           Examples.item_lower_unit Hunit).
Defined.

(** ** The index aligner, continued *)

Section IndexAlignerMore.

Import Models Examples.

#[local] Existing Instance date_desc_trans.
#[local] Existing Instance date_desc_total.

#[local] Instance date_asc_trans : Transitive date_asc.
Proof. intros r1 r2 r3 H12 H23. unfold date_asc in *. etransitivity; eassumption. Qed.

#[local] Instance date_asc_total : Total date_asc.
Proof. intros r1 r2. unfold date_asc. destruct (total date_desc r1 r2); tauto. Qed.

Lemma first_of_month_mono (d1 d2 : date) :
  date_leb d1 d2 = true ->
  date_leb (_get_first_of_month d1) (_get_first_of_month d2) = true.
Proof. rewrite !date_leb_iff. unfold _get_first_of_month. simpl. lia. Qed.

Lemma get_index_for_date_Some (table : list FredAero) (target_date : date)
    (r : FredAero) :
  get_index_for_date table target_date = Some r ->
  r ∈ table
  /\ exists d, observation_date r = Some d
       /\ date_leb d (_get_first_of_month target_date) = true
       /\ forall r' d', r' ∈ table -> observation_date r' = Some d' ->
            date_leb d' (_get_first_of_month target_date) = true ->
            date_leb d' d = true.
Proof.
  unfold get_index_for_date. intros Hhd.
  apply head_merge_sort_desc in Hhd as [Hin Hmax].
  apply elem_of_lte_filter in Hin as (Hin & d & Hd & Hle).
  split; [exact Hin|]. exists d. split; [exact Hd|]. split; [exact Hle|].
  intros r' d' Hin' Hd' Hle'.
  destruct (Hmax r') as [->|Hdesc].
  - apply elem_of_lte_filter. split; [exact Hin'|]. exists d'. split; assumption.
  - assert (d' = d) as -> by congruence. apply date_leb_refl.
  - unfold date_desc in Hdesc. rewrite Hd, Hd' in Hdesc. exact Hdesc.
Qed.

Lemma get_index_for_date_found (table : list FredAero) (target_date : date)
    (r' : FredAero) (d' : date) :
  r' ∈ table -> observation_date r' = Some d' ->
  date_leb d' (_get_first_of_month target_date) = true ->
  exists r, get_index_for_date table target_date = Some r.
Proof.
  intros Hin Hd Hle. unfold get_index_for_date.
  destruct (head _) as [r|] eqn:Hhd; [exists r; reflexivity|].
  apply head_merge_sort_None in Hhd.
  assert (r' ∈ List.filter
            (observation_date_lte (_get_first_of_month target_date)) table)
    as Hf by (apply elem_of_lte_filter; split; [exact Hin|]; exists d'; split; assumption).
  rewrite Hhd in Hf. inversion Hf.
Qed.

(** X7. The lookup is monotone in the target date: when it finds an
    observation for a date, it finds one for every later date, and that one
    is not dated earlier. Two dates of the same month get the same answer. *)
Theorem get_index_for_date_monotone (table : list FredAero) (d1 d2 : date)
    (r1 : FredAero) (o1 : date) :
  date_leb d1 d2 = true ->
  get_index_for_date table d1 = Some r1 ->
  observation_date r1 = Some o1 ->
  (exists r2 o2, get_index_for_date table d2 = Some r2
                 /\ observation_date r2 = Some o2
                 /\ date_leb o1 o2 = true)
  /\ (year d1 = year d2 -> month d1 = month d2 ->
      get_index_for_date table d2 = Some r1).
Proof.
  intros Hle H1 Ho1.
  pose proof (first_of_month_mono _ _ Hle) as Hfom.
  apply get_index_for_date_Some in H1 as H1'.
  destruct H1' as (Hin1 & d & Hd & Hle1 & _).
  assert (d = o1) as -> by congruence.
  pose proof (date_leb_trans _ _ _ Hle1 Hfom) as Hle2.
  split.
  - destruct (get_index_for_date_found table d2 r1 o1 Hin1 Ho1 Hle2) as [r2 H2].
    apply get_index_for_date_Some in H2 as H2'.
    destruct H2' as (_ & o2 & Ho2 & _ & Hmax2).
    exists r2, o2. split; [exact H2|]. split; [exact Ho2|].
    exact (Hmax2 r1 o1 Hin1 Ho1 Hle2).
  - intros Hy Hm. rewrite <- H1. unfold get_index_for_date, _get_first_of_month.
    rewrite Hy, Hm. reflexivity.
Qed.

Lemma elem_of_range_filter (lo hi : date) (table : list FredAero) (r : FredAero) :
  r ∈ List.filter (fun r => observation_date_gte lo r
                            && observation_date_lte hi r) table
  <-> r ∈ table
      /\ exists d, observation_date r = Some d
           /\ date_leb lo d = true /\ date_leb d hi = true.
Proof.
  rewrite list_elem_of_In, List.filter_In, <- list_elem_of_In.
  unfold observation_date_gte, observation_date_lte.
  split; intros [Hin Hd]; (split; [exact Hin|]).
  - destruct (observation_date r) as [d|]; [|discriminate].
    apply andb_prop in Hd as [Hlo Hhi]. exists d. repeat split; assumption.
  - destruct Hd as (d & -> & Hlo & Hhi). rewrite Hlo, Hhi. reflexivity.
Qed.

(** X8. The range lookup returns, in ascending order of date and each as
    often as the table holds it, exactly the observations dated from the
    first of the start month to the first of the end month; rows without a
    date are never returned, and the range is empty when the start month is
    after the end month. *)
Theorem get_index_range_for_analysis_spec (table : list FredAero)
    (today start_date : date) (end_date : option date) :
  let end_month := _get_first_of_month (default today end_date) in
  let start_month := _get_first_of_month start_date in
  let range := get_index_range_for_analysis table today start_date end_date in
  (forall r, r ∈ range
             <-> r ∈ table
                 /\ exists d, observation_date r = Some d
                      /\ date_leb start_month d = true
                      /\ date_leb d end_month = true)
  /\ range ≡ₚ List.filter (fun r => observation_date_gte start_month r
                                     && observation_date_lte end_month r) table
  /\ StronglySorted date_asc range
  /\ (date_leb start_month end_month = false -> range = []).
Proof.
  intros end_month start_month range.
  assert (range = merge_sort date_asc
            (List.filter (fun r => observation_date_gte start_month r
                                   && observation_date_lte end_month r) table))
    as Hrange by (unfold range, get_index_range_for_analysis; destruct end_date; reflexivity).
  assert (forall r, r ∈ range
             <-> r ∈ table
                 /\ exists d, observation_date r = Some d
                      /\ date_leb start_month d = true
                      /\ date_leb d end_month = true) as Hmem.
  { intros r. rewrite Hrange, merge_sort_Permutation. apply elem_of_range_filter. }
  split; [exact Hmem|].
  split; [rewrite Hrange; apply merge_sort_Permutation|].
  split; [rewrite Hrange; apply StronglySorted_merge_sort; apply _|].
  intros Hempty. destruct range as [|r range']; [reflexivity|]. exfalso.
  destruct (proj1 (Hmem r)) as (_ & d & _ & Hlo & Hhi); [left|].
  rewrite (date_leb_trans _ _ _ Hlo Hhi) in Hempty. discriminate.
Qed.

(** X9. The two lookups agree: the observation the single-date lookup
    returns for a date lies in every range that ends at that date and
    starts no later than the observation's month, and no observation of the
    range is dated after it. *)
Theorem get_index_for_date_in_range (table : list FredAero)
    (today start_date target_date : date) (r : FredAero) (d : date) :
  get_index_for_date table target_date = Some r ->
  observation_date r = Some d ->
  date_leb (_get_first_of_month start_date) d = true ->
  r ∈ get_index_range_for_analysis table today start_date (Some target_date)
  /\ forall r' d',
       r' ∈ get_index_range_for_analysis table today start_date
              (Some target_date) ->
       observation_date r' = Some d' -> date_leb d' d = true.
Proof.
  intros Hget Hd Hstart.
  apply get_index_for_date_Some in Hget as (Hin & d0 & Hd0 & Hle & Hmax).
  assert (d0 = d) as -> by congruence.
  unfold get_index_range_for_analysis.
  split.
  - rewrite merge_sort_Permutation. apply elem_of_range_filter.
    split; [exact Hin|]. exists d. repeat split; assumption.
  - intros r' d' Hr' Hd'. rewrite merge_sort_Permutation in Hr'.
    apply elem_of_range_filter in Hr' as (Hin' & d1 & Hd1 & _ & Hhi).
    assert (d1 = d') as -> by congruence.
    exact (Hmax r' d' Hin' Hd' Hhi).
Qed.

End IndexAlignerMore.

(** X7 and X9 run on a table of three monthly observations. *)
Lemma get_index_for_date_monotone_witness :
  date_leb (mkDate 2024 3 17) (mkDate 2024 4 2) = true
  /\ Models.get_index_for_date
       [Examples.obs_feb; Examples.obs_apr; Examples.obs_mar]
       (mkDate 2024 3 17) = Some Examples.obs_mar
  /\ exists r2 o2,
       Models.get_index_for_date
         [Examples.obs_feb; Examples.obs_apr; Examples.obs_mar]
         (mkDate 2024 4 2) = Some r2
       /\ Models.observation_date r2 = Some o2
       /\ date_leb (mkDate 2024 3 1) o2 = true.
Proof.
  split; [reflexivity|]. split; [vm_compute; reflexivity|].
  exact (proj1 (get_index_for_date_monotone
                  [Examples.obs_feb; Examples.obs_apr; Examples.obs_mar]
                  (mkDate 2024 3 17) (mkDate 2024 4 2) Examples.obs_mar
                  (mkDate 2024 3 1) eq_refl eq_refl eq_refl)).
Defined.

Lemma get_index_for_date_in_range_witness :
  Models.get_index_for_date
    [Examples.obs_feb; Examples.obs_apr; Examples.obs_mar] (mkDate 2024 3 17)
  = Some Examples.obs_mar
  /\ Examples.obs_mar
     ∈ Models.get_index_range_for_analysis
         [Examples.obs_feb; Examples.obs_apr; Examples.obs_mar]
         (mkDate 2026 11 4) (mkDate 2024 2 9) (Some (mkDate 2024 3 17)).
Proof.
  split; [vm_compute; reflexivity|].
  exact (proj1 (get_index_for_date_in_range
                  [Examples.obs_feb; Examples.obs_apr; Examples.obs_mar]
                  (mkDate 2026 11 4) (mkDate 2024 2 9) (mkDate 2024 3 17)
                  Examples.obs_mar (mkDate 2024 3 1)
                  eq_refl eq_refl eq_refl)).
Defined.

(** ** The store of prompt configurations, continued *)

Section ConfigStoreMore.

Import Models Extractor Examples.

Lemma next_pk_above (t : ConfigTable) (k : Z) :
  is_Some (t !! k) -> k < next_pk t.
Proof.
  unfold next_pk.
  enough (k_le : forall k, is_Some (t !! k) ->
                           k <= map_fold (fun k _ acc => Z.max k acc) 0 t)
    by (intros Hk; specialize (k_le k Hk); lia).
  clear k.
  apply (map_fold_weak_ind
           (fun acc (m : ConfigTable) => forall k, is_Some (m !! k) -> k <= acc)).
  - intros k [r Hr]. rewrite lookup_empty in Hr. discriminate.
  - intros i x m acc _ IH k Hk.
    destruct (decide (i = k)) as [->|Hne]; [lia|].
    rewrite lookup_insert_ne in Hk by exact Hne.
    specialize (IH k Hk). lia.
Qed.

(** A new row never takes the key of an existing one. *)
Lemma next_pk_fresh (t : ConfigTable) : t !! next_pk t = None.
Proof.
  destruct (t !! next_pk t) as [r|] eqn:Hr; [|reflexivity].
  pose proof (next_pk_above t (next_pk t) (mk_is_Some _ _ Hr)). lia.
Qed.

Lemma exclude_update_other (p : option Z) (t : ConfigTable) (k : Z)
    (r : GPTPromptConfig) :
  t !! k = Some r -> p <> Some k ->
  exclude_update_inactive p t !! k = Some (deactivate r).
Proof.
  intros Hk Hp. rewrite lookup_exclude_update, Hk. simpl.
  destruct (decide (Some k = p)); [congruence | reflexivity].
Qed.

Lemma save_key_other (o : ConfigObj) (t : ConfigTable) (k : Z) :
  is_Some (t !! k) -> pk o <> Some k -> save_key o t <> k.
Proof.
  intros Hk Hp. unfold save_key. destruct (pk o) as [k0|]; [congruence|].
  pose proof (next_pk_above t k Hk). lia.
Qed.

(** X10. A save never removes or rewrites another row: a row under a key
    other than the saved instance's keeps its key, name and prompts; it is
    left as it was by the save of an inactive configuration and only loses
    its active flag by the save of an active one. *)
Theorem save_keeps_other_rows (o : ConfigObj) (t : ConfigTable) (k : Z)
    (r : GPTPromptConfig) :
  t !! k = Some r -> pk o <> Some k ->
  fst (save o t) !! k
  = Some (if is_active (fields o) then deactivate r else r).
Proof.
  intros Hk Hp. unfold save.
  destruct (is_active (fields o)).
  - pose proof (exclude_update_other (pk o) t k r Hk Hp) as Hk1.
    destruct (model_save_cases o (exclude_update_inactive (pk o) t))
      as [-> | ->]; simpl; [exact Hk1|].
    rewrite lookup_insert_ne; [exact Hk1|].
    apply save_key_other; [rewrite Hk1; eexists; reflexivity | exact Hp].
  - destruct (model_save_cases o t) as [-> | ->]; simpl; [exact Hk|].
    rewrite lookup_insert_ne; [exact Hk|].
    apply save_key_other; [rewrite Hk; eexists; reflexivity | exact Hp].
Qed.

Lemma name_taken_insert (k : Z) (n : pystr) (x : GPTPromptConfig)
    (t : ConfigTable) :
  name_taken k n (<[k := x]> t) = name_taken k n t.
Proof.
  unfold name_taken. apply bool_decide_ext. unfold map_Exists.
  split; intros (i & y & Hi & Hne & Hn); exists i, y.
  - rewrite lookup_insert_ne in Hi by congruence. repeat split; assumption.
  - rewrite lookup_insert_ne by congruence. repeat split; assumption.
Qed.

Lemma deactivate_inactive (r : GPTPromptConfig) :
  is_active r = false -> deactivate r = r.
Proof. destruct r as [n sp up a]. simpl. intros ->. reflexivity. Qed.

(** The bulk update changes nothing when only the excluded row is active. *)
Lemma exclude_update_id (k : Z) (t : ConfigTable) :
  (forall j r, t !! j = Some r -> is_active r = true -> j = k) ->
  exclude_update_inactive (Some k) t = t.
Proof.
  intros Honly. apply map_eq. intros j. rewrite lookup_exclude_update.
  destruct (t !! j) as [r|] eqn:Hj; [|reflexivity]. simpl.
  destruct (decide (Some j = Some k)); [reflexivity|].
  destruct (is_active r) eqn:Hr.
  - specialize (Honly j r Hj Hr). congruence.
  - rewrite (deactivate_inactive r Hr). reflexivity.
Qed.

(** A successful save, and the save of the instance it returns, on the
    table of names, prompts and active flags. *)
Lemma save_then_save (o o' : ConfigObj) (t : ConfigTable) :
  snd (save o t) = Ok o' ->
  fields o' = fields o
  /\ (exists k, pk o' = Some k
        /\ fst (save o t) !! k = Some (fields o)
        /\ (pk o = None -> t !! k = None)
        /\ (forall k0, pk o = Some k0 -> k = k0))
  /\ save o' (fst (save o t)) = (fst (save o t), Ok o').
Proof.
  set (t1 := if is_active (fields o)
             then exclude_update_inactive (pk o) t else t).
  set (k := save_key o t1).
  assert (save o t = model_save o t1) as Hsave by reflexivity.
  assert (forall j, t1 !! j = None <-> t !! j = None) as Hdom.
  { intros j. unfold t1. destruct (is_active (fields o)); [|reflexivity].
    rewrite lookup_exclude_update. destruct (t !! j); simpl; split; congruence. }
  rewrite Hsave. unfold model_save. fold k.
  destruct (name_taken k (name (fields o)) t1) eqn:Htaken;
    simpl; [discriminate|].
  intros [= <-]. simpl. split; [reflexivity|]. split.
  - exists k. split; [reflexivity|].
    split; [apply lookup_insert_eq|]. split.
    + intros Hnone. apply Hdom. unfold k, save_key. rewrite Hnone.
      apply next_pk_fresh.
    + intros k0 Hk0. unfold k, save_key. rewrite Hk0. reflexivity.
  - unfold save. simpl.
    assert ((if is_active (fields o)
             then exclude_update_inactive (Some k) (<[k := fields o]> t1)
             else <[k := fields o]> t1) = <[k := fields o]> t1) as ->.
    { destruct (is_active (fields o)) eqn:Hact; [|reflexivity].
      apply exclude_update_id. intros j r Hj Hr.
      destruct (decide (k = j)) as [|Hne]; [congruence|].
      rewrite lookup_insert_ne in Hj by exact Hne.
      pose proof (exclude_update_active _ _ _ _ Hj Hr) as Hpk.
      unfold k, save_key. rewrite Hpk. reflexivity. }
    unfold model_save, save_key. simpl.
    rewrite name_taken_insert, Htaken, insert_insert_eq. reflexivity.
Qed.

(** X11. A successful save can be read back: the instance returned carries
    the saved name, prompts and active flag and a key, the table holds them
    under that key, a new instance gets a key that no row of the table had,
    and an instance that had a key keeps it. *)
Theorem save_round_trip (o o' : ConfigObj) (t : ConfigTable) :
  snd (save o t) = Ok o' ->
  fields o' = fields o
  /\ (exists k, pk o' = Some k
        /\ fst (save o t) !! k = Some (fields o)
        /\ (pk o = None -> t !! k = None)
        /\ (forall k0, pk o = Some k0 -> k = k0)).
Proof.
  intros Hok. destruct (save_then_save o o' t Hok) as (Hfields & Hkey & _).
  split; [exact Hfields | exact Hkey].
Qed.

(** X23. Saving the instance a successful save returned succeeds again
    with the same key and leaves the name, the prompts and the active flag
    of every row as they are; it adds no row and removes none. (The code
    also rewrites [updated_at] of the saved row, a column this table does
    not carry.) *)
Theorem save_again_keeps_columns (o o' : ConfigObj) (t : ConfigTable) :
  snd (save o t) = Ok o' ->
  snd (save o' (fst (save o t))) = Ok o'
  /\ (forall k r,
        fst (save o t) !! k = Some r ->
        exists r',
          fst (save o' (fst (save o t))) !! k = Some r'
          /\ name r' = name r
          /\ system_prompt r' = system_prompt r
          /\ user_prompt r' = user_prompt r
          /\ is_active r' = is_active r)
  /\ (forall k,
        fst (save o t) !! k = None ->
        fst (save o' (fst (save o t))) !! k = None).
Proof.
  intros Hok. destruct (save_then_save o o' t Hok) as (_ & _ & Hagain).
  rewrite Hagain. simpl. split; [reflexivity|]. split.
  - intros k r Hk. exists r. repeat split. exact Hk.
  - intros k Hk. exact Hk.
Qed.

(** X12. An activation takes effect at once: after a successful save of
    an active configuration the resolver returns that configuration's
    prompts, whatever the store held before, even two active rows. *)
Theorem save_active_then_resolve (o o' : ConfigObj) (t : ConfigTable) :
  is_active (fields o) = true -> snd (save o t) = Ok o' ->
  _get_active_prompt_config (fst (save o t))
  = Ok (system_prompt (fields o), user_prompt (fields o)).
Proof.
  intros Hact Hok.
  destruct (save_active_deactivates_others o o' t Hact Hok)
    as (k & _ & Hk & Honly).
  assert (active_rows (fst (save o t)) = {[k := fields o]}) as Hrows.
  { apply map_eq. intros j. unfold active_rows.
    destruct (decide (k = j)) as [<-|Hne].
    - rewrite lookup_singleton_eq. apply map_lookup_filter_Some.
      split; [exact Hk | exact Hact].
    - rewrite lookup_singleton_ne by exact Hne.
      apply map_lookup_filter_None.
      destruct (fst (save o t) !! j) as [r|] eqn:Hj; [right | left; reflexivity].
      intros r' [= <-] Hr. simpl in Hr.
      specialize (Honly j r Hj Hr). congruence. }
  unfold _get_active_prompt_config, objects_get_active.
  rewrite Hrows, map_to_list_singleton. reflexivity.
Qed.

(** X13. A store written only through [save] and the admin's delete never
    makes the resolver raise: it returns the prompts of the single active
    row or the defaults. *)
Theorem resolver_total_on_written_store (ws : list write) :
  exists prompts,
    _get_active_prompt_config (apply_writes ws ∅) = Ok prompts.
Proof.
  apply get_active_prompt_config_invariant, apply_writes_preserve,
    empty_at_most_one_active.
Qed.

Lemma exclude_update_names (p : option Z) (t : ConfigTable) (k : Z)
    (r : GPTPromptConfig) :
  exclude_update_inactive p t !! k = Some r ->
  exists r0, t !! k = Some r0 /\ name r0 = name r.
Proof.
  rewrite lookup_exclude_update. destruct (t !! k) as [r0|]; [|discriminate].
  simpl. intros [= <-]. exists r0. split; [reflexivity|].
  destruct (decide (Some k = p)); reflexivity.
Qed.

Lemma model_save_names_unique (o : ConfigObj) (t : ConfigTable) :
  names_unique t -> names_unique (fst (model_save o t)).
Proof.
  intros Huniq. unfold model_save.
  destruct (name_taken (save_key o t) (name (fields o)) t) eqn:Htaken;
    simpl; [exact Huniq|].
  apply bool_decide_eq_false in Htaken.
  assert (forall j r, t !! j = Some r -> name r = name (fields o) ->
                      j = save_key o t) as Hfree.
  { intros j r Hj Hn. destruct (decide (j = save_key o t)); [assumption|].
    exfalso. apply Htaken. exists j, r. repeat split; assumption. }
  intros k1 k2 r1 r2 H1 H2 Hn.
  destruct (decide (save_key o t = k1)) as [E1|N1];
    destruct (decide (save_key o t = k2)) as [E2|N2].
  - congruence.
  - subst k1. rewrite lookup_insert_eq in H1. injection H1 as <-.
    rewrite lookup_insert_ne in H2 by exact N2.
    symmetry. apply (Hfree k2 r2 H2). congruence.
  - subst k2. rewrite lookup_insert_eq in H2. injection H2 as <-.
    rewrite lookup_insert_ne in H1 by exact N1.
    apply (Hfree k1 r1 H1). congruence.
  - rewrite lookup_insert_ne in H1 by exact N1.
    rewrite lookup_insert_ne in H2 by exact N2.
    exact (Huniq _ _ _ _ H1 H2 Hn).
Qed.

Lemma save_names_unique (o : ConfigObj) (t : ConfigTable) :
  names_unique t -> names_unique (fst (save o t)).
Proof.
  intros Huniq. unfold save. apply model_save_names_unique.
  destruct (is_active (fields o)); [|exact Huniq].
  intros k1 k2 r1 r2 H1 H2 Hn.
  apply exclude_update_names in H1 as (r1' & H1 & Hn1).
  apply exclude_update_names in H2 as (r2' & H2 & Hn2).
  apply (Huniq _ _ _ _ H1 H2). congruence.
Qed.

(** X14. The names stay unique: in every store reached from the empty one
    by saves and deletes no two rows share a name, and a save of a name
    that a row under another key already has raises [IntegrityError]
    instead of writing the instance. *)
Theorem names_stay_unique :
  (forall ws, names_unique (apply_writes ws ∅))
  /\ (forall o t, names_unique t -> names_unique (fst (save o t)))
  /\ (forall o t k r,
        t !! k = Some r -> pk o <> Some k -> name r = name (fields o) ->
        snd (save o t) = Raise IntegrityError).
Proof.
  split; [|split].
  - intros ws.
    enough (forall t, names_unique t -> names_unique (apply_writes ws t)) as Hall.
    { apply Hall. intros k1 k2 r1 r2 H1. rewrite lookup_empty in H1. discriminate. }
    induction ws as [|w ws IH]; intros t Huniq; [exact Huniq|].
    apply IH. destruct w as [o|k]; simpl; [apply save_names_unique, Huniq|].
    intros k1 k2 r1 r2 H1 H2. unfold delete_config in H1, H2.
    apply lookup_delete_Some in H1 as [_ H1].
    apply lookup_delete_Some in H2 as [_ H2].
    exact (Huniq _ _ _ _ H1 H2).
  - intros o t. apply save_names_unique.
  - intros o t k r Hk Hp Hn. unfold save.
    set (t1 := if is_active (fields o)
               then exclude_update_inactive (pk o) t else t).
    assert (exists r1, t1 !! k = Some r1 /\ name r1 = name (fields o))
      as (r1 & Hk1 & Hn1).
    { unfold t1. destruct (is_active (fields o)).
      - exists (deactivate r). split; [|exact Hn].
        apply exclude_update_other; assumption.
      - exists r. split; assumption. }
    unfold model_save.
    assert (name_taken (save_key o t1) (name (fields o)) t1 = true) as ->;
      [|reflexivity].
    apply bool_decide_eq_true. exists k, r1.
    split; [exact Hk1|]. split; [|exact Hn1].
    intros Heq. apply (save_key_other o t1 k); [rewrite Hk1; eexists; reflexivity | exact Hp | symmetry; exact Heq].
Qed.

End ConfigStoreMore.

(** X10, X11, X12 and X23 run on the store in which "A" is active: "B"
    is saved as the active configuration. *)
Lemma save_keeps_other_rows_witness :
  Examples.store_A_active !! 1 = Some Examples.config_A
  /\ Models.pk (Models.mkObj (Some 2) Examples.config_B) <> Some 1
  /\ fst (Models.save (Models.mkObj (Some 2) Examples.config_B)
                      Examples.store_A_active) !! 1
     = Some (Models.deactivate Examples.config_A).
Proof.
  assert (Examples.store_A_active !! 1 = Some Examples.config_A) as Hk
    by (vm_compute; reflexivity).
  assert (Models.pk (Models.mkObj (Some 2) Examples.config_B) <> Some 1) as Hp
    by (simpl; congruence).
  split; [exact Hk|]. split; [exact Hp|].
  exact (save_keeps_other_rows (Models.mkObj (Some 2) Examples.config_B)
           Examples.store_A_active 1 Examples.config_A Hk Hp).
Defined.

Lemma save_round_trip_witness :
  snd (Models.save (Models.mkObj (Some 2) Examples.config_B)
                   Examples.store_A_active)
  = Ok (Models.mkObj (Some 2) Examples.config_B)
  /\ exists k,
       Models.pk (Models.mkObj (Some 2) Examples.config_B) = Some k
       /\ fst (Models.save (Models.mkObj (Some 2) Examples.config_B)
                           Examples.store_A_active) !! k
          = Some Examples.config_B.
Proof.
  assert (snd (Models.save (Models.mkObj (Some 2) Examples.config_B)
                           Examples.store_A_active)
          = Ok (Models.mkObj (Some 2) Examples.config_B)) as Hok
    by (vm_compute; reflexivity).
  split; [exact Hok|].
  destruct (proj2 (save_round_trip (Models.mkObj (Some 2) Examples.config_B)
                     (Models.mkObj (Some 2) Examples.config_B)
                     Examples.store_A_active Hok))
    as (k & Hpk & Hk & _).
  exists k. split; [exact Hpk | exact Hk].
Defined.

Lemma save_again_keeps_columns_witness :
  snd (Models.save (Models.mkObj (Some 2) Examples.config_B)
                   Examples.store_A_active)
  = Ok (Models.mkObj (Some 2) Examples.config_B)
  /\ snd (Models.save (Models.mkObj (Some 2) Examples.config_B)
            (fst (Models.save (Models.mkObj (Some 2) Examples.config_B)
                              Examples.store_A_active)))
     = Ok (Models.mkObj (Some 2) Examples.config_B).
Proof.
  assert (snd (Models.save (Models.mkObj (Some 2) Examples.config_B)
                           Examples.store_A_active)
          = Ok (Models.mkObj (Some 2) Examples.config_B)) as Hok
    by (vm_compute; reflexivity).
  split; [exact Hok|].
  exact (proj1 (save_again_keeps_columns
                  (Models.mkObj (Some 2) Examples.config_B)
                  (Models.mkObj (Some 2) Examples.config_B)
                  Examples.store_A_active Hok)).
Defined.

Lemma save_active_then_resolve_witness :
  Models.is_active
    (Models.fields (Models.mkObj (Some 2) Examples.config_B)) = true
  /\ snd (Models.save (Models.mkObj (Some 2) Examples.config_B)
                      Examples.store_two_active)
     = Ok (Models.mkObj (Some 2) Examples.config_B)
  /\ Extractor._get_active_prompt_config
       (fst (Models.save (Models.mkObj (Some 2) Examples.config_B)
                         Examples.store_two_active))
     = Ok (Models.system_prompt Examples.config_B,
           Models.user_prompt Examples.config_B).
Proof.
  assert (snd (Models.save (Models.mkObj (Some 2) Examples.config_B)
                           Examples.store_two_active)
          = Ok (Models.mkObj (Some 2) Examples.config_B)) as Hok
    by (vm_compute; reflexivity).
  split; [reflexivity|]. split; [exact Hok|].
  exact (save_active_then_resolve (Models.mkObj (Some 2) Examples.config_B)
           (Models.mkObj (Some 2) Examples.config_B)
           Examples.store_two_active eq_refl Hok).
Defined.

(** ** The price analysis, continued *)

Section AnalyzerMore.

Import Analyzer Examples.

Lemma fetch_historical_prices_raises (self : PriceAnalyzer) (query : Source)
    (now : datetime) (item_number : pystr) (lookback_days : Z)
    (pre post : list pystr) (unit : pystr) (e : exn) :
  business_units self = pre ++ unit :: post ->
  (forall u, u ∈ pre ->
     exists rows,
       query u item_number (now - timedelta_days lookback_days) = Ok rows) ->
  query unit item_number (now - timedelta_days lookback_days) = Raise e ->
  fetch_historical_prices self query now item_number lookback_days = Raise e.
Proof.
  intros Hunits Hpre Hunit. unfold fetch_historical_prices. rewrite Hunits.
  rewrite (fetch_loop_raises _ _ _ pre post unit e [] Hpre Hunit). reflexivity.
Qed.

Lemma fetch_historical_prices_ok (self : PriceAnalyzer) (query : Source)
    (now : datetime) (item_number : pystr) (lookback_days : Z)
    (rows_of : pystr -> list (float * datetime)) :
  (forall u, u ∈ business_units self ->
     query u item_number (now - timedelta_days lookback_days) = Ok (rows_of u)) ->
  fetch_historical_prices self query now item_number lookback_days
  = Ok (concat (List.map (fun u => tag_rows u (rows_of u))
                         (business_units self))).
Proof.
  intros Hall. unfold fetch_historical_prices.
  rewrite (fetch_loop_ok _ _ _ _ rows_of [] Hall). simpl.
  destruct (List.map _ _); reflexivity.
Qed.

Lemma filter_tag_rows (u u' : pystr) (rows : list (float * datetime)) :
  List.filter (fun r => bool_decide (business_unit r = u)) (tag_rows u' rows)
  = if decide (u' = u) then tag_rows u' rows else [].
Proof.
  induction rows as [|row rows IH]; simpl; [destruct (decide _); reflexivity|].
  rewrite IH. destruct (decide (u' = u)) as [Heq|Hne].
  - rewrite bool_decide_eq_true_2 by exact Heq. reflexivity.
  - rewrite bool_decide_eq_false_2 by exact Hne. reflexivity.
Qed.

Lemma filter_unit_concat (u : pystr) (units : list pystr)
    (rows_of : pystr -> list (float * datetime)) :
  NoDup units -> u ∈ units ->
  List.filter (fun r => bool_decide (business_unit r = u))
              (concat (List.map (fun u' => tag_rows u' (rows_of u')) units))
  = tag_rows u (rows_of u).
Proof.
  assert (forall us, u ∉ us ->
            List.filter (fun r => bool_decide (business_unit r = u))
              (concat (List.map (fun u' => tag_rows u' (rows_of u')) us)) = [])
    as Hnone.
  { induction us as [|u' us IH]; intros Hnot; [reflexivity|].
    simpl. rewrite List.filter_app, filter_tag_rows.
    apply not_elem_of_cons in Hnot as [Hne Hnot].
    destruct (decide (u' = u)); [congruence|]. apply IH, Hnot. }
  induction units as [|u' units IH]; intros Hnd Hin; [inversion Hin|].
  apply NoDup_cons in Hnd as [Hnot Hnd].
  simpl. rewrite List.filter_app, filter_tag_rows.
  destruct (decide (u' = u)) as [->|Hne].
  - rewrite (Hnone units Hnot), app_nil_r. reflexivity.
  - apply elem_of_cons in Hin as [->|Hin]; [congruence|].
    apply IH; assumption.
Qed.

(** X15. When the units have distinct names and every query answers, the
    fetched frame keeps each source apart and in order: selecting the rows
    of a unit gives exactly the rows its query returned, in the order the
    query returned them, and every row of the frame belongs to a configured
    unit. *)
Theorem fetch_historical_prices_per_unit (self : PriceAnalyzer)
    (query : Source) (now : datetime) (item_number : pystr) (lookback_days : Z)
    (rows_of : pystr -> list (float * datetime)) :
  NoDup (business_units self) ->
  (forall u, u ∈ business_units self ->
     query u item_number (now - timedelta_days lookback_days) = Ok (rows_of u)) ->
  exists data,
    fetch_historical_prices self query now item_number lookback_days = Ok data
    /\ (forall u, u ∈ business_units self ->
          List.filter (fun r => bool_decide (business_unit r = u)) data
          = tag_rows u (rows_of u))
    /\ (forall r, r ∈ data -> business_unit r ∈ business_units self).
Proof.
  intros Hnd Hall. eexists.
  split; [apply (fetch_historical_prices_ok _ _ _ _ _ rows_of Hall)|].
  split; [intros u Hu; apply filter_unit_concat; assumption|].
  intros r Hr. apply list_elem_of_In, in_concat in Hr as (frame & Hframe & Hr).
  apply List.in_map_iff in Hframe as (u & <- & Hu).
  unfold tag_rows in Hr. apply List.in_map_iff in Hr as (row & <- & _).
  simpl. apply list_elem_of_In, Hu.
Qed.

(** X16. The analysis reports [has_data = False] exactly when all its
    statistics are null, and then it has no plot; with data, the minimum,
    the maximum, the average and the volatility are all present. *)
Theorem analyze_item_prices_has_data (self : PriceAnalyzer) (query : Source)
    (plot : Plotter) (agg : SeriesAgg) (clock : nat -> datetime)
    (item_number : pystr) (lookback_days : Z) (a : Analysis) :
  analyze_item_prices self query plot agg clock item_number lookback_days
  = Ok a ->
  (has_data a = false
   <-> statistics a = mkStats None None None None None)
  /\ (has_data a = false -> plot_path a = None)
  /\ (has_data a = true ->
      is_Some (min_price (statistics a))
      /\ is_Some (max_price (statistics a))
      /\ is_Some (avg_price (statistics a))
      /\ is_Some (price_volatility (statistics a)))
  /\ (has_data a = false
      <-> fetch_historical_prices self query (clock 0%nat) item_number
                                  lookback_days = Ok []).
Proof.
  unfold analyze_item_prices.
  destruct (fetch_historical_prices self query (clock 0%nat) item_number
              lookback_days) as [[|row data]|e]; simpl; [| |discriminate].
  - intros [= <-]. simpl. repeat split; try discriminate; reflexivity.
  - destruct (plot (row :: data) item_number) as [path|e]; simpl;
      [|discriminate].
    intros [= <-]. simpl.
    split; [split; discriminate|]. split; [discriminate|].
    split; [intros _; repeat split; eexists; reflexivity|].
    split; discriminate.
Qed.

(** X17. The analysis hands on the failure of a source: when the query of
    a unit raises, and those of the units before it answer, the analysis of
    the item raises the same exception and no statistics are produced. *)
Theorem analyze_item_prices_propagates (self : PriceAnalyzer) (query : Source)
    (plot : Plotter) (agg : SeriesAgg) (clock : nat -> datetime)
    (item_number : pystr) (lookback_days : Z)
    (pre post : list pystr) (unit : pystr) (e : exn) :
  business_units self = pre ++ unit :: post ->
  (forall u, u ∈ pre ->
     exists rows,
       query u item_number (clock 0%nat - timedelta_days lookback_days)
       = Ok rows) ->
  query unit item_number (clock 0%nat - timedelta_days lookback_days)
  = Raise e ->
  analyze_item_prices self query plot agg clock item_number lookback_days
  = Raise e.
Proof.
  intros Hunits Hpre Hunit. unfold analyze_item_prices.
  rewrite (fetch_historical_prices_raises _ _ _ _ _ pre post unit e
             Hunits Hpre Hunit).
  reflexivity.
Qed.

(** X18. With a clock that does not run backwards the two selections of
    the statistics lose no row of the last 180 days: every such row is a
    recent or a previous row. When the readings are the same instant no row
    is both, and every recent row is dated after every previous row. *)
Theorem statistics_selections_cover (clock : nat -> datetime)
    (data : list PriceRow) :
  clock 0%nat <= clock 1%nat ->
  (forall r, r ∈ data ->
     clock 2%nat - timedelta_days 180 <= purchase_date r ->
     r ∈ recent_rows (clock 0%nat) data
     \/ r ∈ previous_rows (clock 1%nat) (clock 2%nat) data)
  /\ (clock 0%nat = clock 1%nat ->
      forall r1 r2,
        r1 ∈ recent_rows (clock 0%nat) data ->
        r2 ∈ previous_rows (clock 1%nat) (clock 2%nat) data ->
        purchase_date r2 < purchase_date r1 /\ r1 <> r2).
Proof.
  intros Hmono. split.
  - intros r Hr Hlo.
    destruct (Z_lt_le_dec (purchase_date r) (clock 0%nat - timedelta_days 90))
      as [Hold|Hnew].
    + right. apply elem_of_previous_rows. split; [exact Hr|]. lia.
    + left. apply elem_of_recent_rows. split; [exact Hr | exact Hnew].
  - intros Heq r1 r2 H1 H2.
    apply elem_of_recent_rows in H1 as [_ H1].
    apply elem_of_previous_rows in H2 as [_ [_ H2]].
    split; [lia|]. intros ->. lia.
Qed.

End AnalyzerMore.

(** X15 to X18 run on the three configured units. *)
Lemma fetch_historical_prices_per_unit_witness :
  NoDup (Analyzer.business_units Analyzer.default_analyzer)
  /\ (forall u, u ∈ Analyzer.business_units Analyzer.default_analyzer ->
        Examples.source_all_up u (py "P-100") (0 - timedelta_days 365)
        = Ok (Examples.rows_all_up u))
  /\ exists data,
       Analyzer.fetch_historical_prices Analyzer.default_analyzer
         Examples.source_all_up 0 (py "P-100") 365 = Ok data
       /\ (forall u, u ∈ Analyzer.business_units Analyzer.default_analyzer ->
             List.filter
               (fun r => bool_decide (Analyzer.business_unit r = u)) data
             = Analyzer.tag_rows u (Examples.rows_all_up u))
       /\ (forall r, r ∈ data ->
             Analyzer.business_unit r
             ∈ Analyzer.business_units Analyzer.default_analyzer).
Proof.
  assert (NoDup (Analyzer.business_units Analyzer.default_analyzer)) as Hnd
    by (apply (bool_decide_unpack _); vm_compute; exact I).
  assert (forall u, u ∈ Analyzer.business_units Analyzer.default_analyzer ->
            Examples.source_all_up u (py "P-100") (0 - timedelta_days 365)
            = Ok (Examples.rows_all_up u)) as Hall
    by (intros u _; unfold Examples.source_all_up, Examples.rows_all_up;
        destruct (decide (u = py "business_unit_b")); reflexivity).
  split; [exact Hnd|]. split; [exact Hall|].
  exact (fetch_historical_prices_per_unit Analyzer.default_analyzer
           Examples.source_all_up 0 (py "P-100") 365 Examples.rows_all_up
           Hnd Hall).
Defined.

Lemma analyze_item_prices_has_data_witness :
  exists a,
    Analyzer.analyze_item_prices Analyzer.default_analyzer
      Examples.source_all_up Examples.example_plot Examples.example_agg
      (fun _ => 0) (py "P-100") 365 = Ok a
    /\ (Analyzer.has_data a = false
        <-> Analyzer.statistics a
            = Analyzer.mkStats None None None None None).
Proof.
  assert (exists a,
            Analyzer.analyze_item_prices Analyzer.default_analyzer
              Examples.source_all_up Examples.example_plot Examples.example_agg
              (fun _ => 0) (py "P-100") 365 = Ok a) as [a Ha]
    by (eexists; vm_compute; reflexivity).
  exists a. split; [exact Ha|].
  exact (proj1 (analyze_item_prices_has_data Analyzer.default_analyzer
                  Examples.source_all_up Examples.example_plot
                  Examples.example_agg (fun _ => 0) (py "P-100") 365 a Ha)).
Defined.

Lemma analyze_item_prices_propagates_witness :
  Examples.source_b_down (py "business_unit_b") (py "P-100")
    (0 - timedelta_days 365) = Raise DatabaseError
  /\ Analyzer.analyze_item_prices Analyzer.default_analyzer
       Examples.source_b_down Examples.example_plot Examples.example_agg
       (fun _ => 0) (py "P-100") 365 = Raise DatabaseError.
Proof.
  assert (Examples.source_b_down (py "business_unit_b") (py "P-100")
            (0 - timedelta_days 365) = Raise DatabaseError) as Hb
    by (vm_compute; reflexivity).
  split; [exact Hb|].
  apply (analyze_item_prices_propagates Analyzer.default_analyzer
           Examples.source_b_down Examples.example_plot Examples.example_agg
           (fun _ => 0) (py "P-100") 365
           [py "business_unit_a"] [py "business_unit_c"]
           (py "business_unit_b") DatabaseError).
  - reflexivity.
  - intros u Hu. apply list_elem_of_singleton in Hu as ->.
    eexists. vm_compute. reflexivity.
  - exact Hb.
Defined.

Lemma statistics_selections_cover_witness :
  Examples.on_day 200 <= Examples.on_day 200
  /\ forall r, r ∈ Examples.prices_120_days ->
       Examples.on_day 200 - timedelta_days 180 <= Analyzer.purchase_date r ->
       r ∈ Analyzer.recent_rows (Examples.on_day 200) Examples.prices_120_days
       \/ r ∈ Analyzer.previous_rows (Examples.on_day 200)
                (Examples.on_day 200) Examples.prices_120_days.
Proof.
  assert (Examples.on_day 200 <= Examples.on_day 200) as Hmono by lia.
  split; [exact Hmono|].
  exact (proj1 (statistics_selections_cover (fun _ => Examples.on_day 200)
                  Examples.prices_120_days Hmono)).
Defined.

(** ** The download view *)

Section DownloadView.

Import Views Examples.

Lemma basename_from_no_slash (s cur : pystr) :
  47%N ∉ cur -> 47%N ∉ basename_from cur s.
Proof.
  revert cur. induction s as [|c s IH]; intros cur Hcur; simpl.
  - intros Hin. apply Hcur. apply list_elem_of_In, in_rev, list_elem_of_In.
    exact Hin.
  - destruct (c =? 47)%N eqn:Hc.
    + apply IH. apply not_elem_of_nil.
    + apply IH. apply not_elem_of_cons. split; [|exact Hcur].
      apply N.eqb_neq in Hc. congruence.
Qed.

Lemma field_path_raises (site : Site) (field_name : pystr)
    (field : option pystr) (e : view_exn) :
  field_path site field_name field = Raised e ->
  (exists m, e = ValueError m) \/ (exists m, e = OtherError m).
Proof.
  unfold field_path. destruct field as [[|c file]|].
  - intros [= <-]. left. eexists. reflexivity.
  - destruct (storage_path site (c :: file)); simpl; [discriminate|].
    intros [= <-]. right. eexists. reflexivity.
  - intros [= <-]. left. eexists. reflexivity.
Qed.

(** With the quote found, the body raises anything but [DoesNotExist]. *)
Lemma download_body_found (site : Site) (quote_id : Z) (format : pystr)
    (q : Quote) (e : view_exn) :
  quotes site !! quote_id = Some q ->
  download_body site quote_id format = Raised e ->
  e <> QuoteDoesNotExist.
Proof.
  intros Hq. unfold download_body, get_quote. rewrite Hq. simpl.
  destruct (decide (format = py "pdf")) as [_|_].
  - destruct (field_path site (py "processed_pdf") (processed_pdf q))
      as [file_path|e'] eqn:Hpath; simpl.
    + destruct (open_rb site file_path); simpl; [discriminate|].
      intros [= <-]. discriminate.
    + intros [= <-].
      destruct (field_path_raises _ _ _ _ Hpath) as [[m ->]|[m ->]]; discriminate.
  - destruct (decide (format = py "docx")) as [_|_].
    + destruct (field_path site (py "docx_file") (docx_file q))
        as [file_path|e'] eqn:Hpath; simpl.
      * destruct (open_rb site file_path); simpl; [discriminate|].
        intros [= <-]. discriminate.
      * intros [= <-].
        destruct (field_path_raises _ _ _ _ Hpath) as [[m ->]|[m ->]]; discriminate.
    + simpl. intros [= <-]. discriminate.
Qed.

(** X19. The download view answers 404 exactly when the quote does not
    exist. For an existing quote it always returns a response; in
    particular a format other than [pdf] and [docx] does not give the 404
    the code raises for it: the [Http404] is caught by the handler of every
    exception, and the client is redirected to the result page with the
    message "Error downloading file: Invalid format requested". *)
Theorem download_get_not_found (site : Site) (quote_id : Z) (format : pystr) :
  (quotes site !! quote_id = None ->
   download_get site quote_id format = Raised (Http404 (py "Quote not found")))
  /\ (forall e, download_get site quote_id format = Raised e ->
        quotes site !! quote_id = None /\ e = Http404 (py "Quote not found"))
  /\ (forall q, quotes site !! quote_id = Some q ->
        format <> py "pdf" -> format <> py "docx" ->
        download_get site quote_id format
        = Returned (Redirect (py "quote_result")
                      (py "Error downloading file: Invalid format requested"))).
Proof.
  split; [|split].
  - intros Hnone. unfold download_get, download_body, get_quote.
    rewrite Hnone. reflexivity.
  - intros e. unfold download_get.
    destruct (download_body site quote_id format) as [r|e'] eqn:Hbody;
      [discriminate|].
    destruct (quotes site !! quote_id) as [q|] eqn:Hq.
    + pose proof (download_body_found site quote_id format q e' Hq Hbody).
      destruct e'; [congruence | discriminate..].
    + unfold download_body, get_quote in Hbody. rewrite Hq in Hbody.
      injection Hbody as <-. intros [= <-]. split; reflexivity.
  - intros q Hq Hpdf Hdocx. unfold download_get, download_body, get_quote.
    rewrite Hq. simpl.
    destruct (decide (format = py "pdf")); [congruence|].
    destruct (decide (format = py "docx")); [congruence|]. reflexivity.
Qed.

(** X20. A file is sent only for the format [pdf] or [docx], with the
    content type of that format, from the path the storage gives the
    quote's own report file, after that file was opened; the file name
    offered to the client is the last component of the path and contains no
    slash. A quote without the report file gets the redirect. *)
Theorem download_get_file (site : Site) (quote_id : Z) (format : pystr)
    (file_path content_type content_disposition : pystr) :
  download_get site quote_id format
  = Returned (FileResponse file_path content_type content_disposition) ->
  exists q file,
    quotes site !! quote_id = Some q
    /\ file <> []
    /\ (format = py "pdf" /\ processed_pdf q = Some file
          /\ content_type = py "application/pdf"
        \/ format = py "docx" /\ docx_file q = Some file
           /\ content_type
              = py "application/vnd.openxmlformats-officedocument.wordprocessingml.document")
    /\ storage_path site file = IoOk file_path
    /\ open_rb site file_path = IoOk tt
    /\ content_disposition
       = py "attachment; filename=" ++ [34%N] ++ basename file_path ++ [34%N]
    /\ 47%N ∉ basename file_path.
Proof.
  unfold download_get.
  destruct (download_body site quote_id format) as [r|e] eqn:Hbody;
    [|destruct e; discriminate].
  intros [= ->]. revert Hbody. unfold download_body, get_quote.
  destruct (quotes site !! quote_id) as [q|]; simpl; [|discriminate].
  assert (forall field_name field p,
            field_path site field_name field = Returned p ->
            exists file, field = Some file /\ file <> []
                         /\ storage_path site file = IoOk p) as Hfield.
  { intros field_name [[|c file]|] p; unfold field_path; try discriminate.
    destruct (storage_path site (c :: file)) eqn:Hs; simpl; [|discriminate].
    intros [= <-]. exists (c :: file). repeat split; [discriminate | exact Hs]. }
  destruct (decide (format = py "pdf")) as [Hpdf|_].
  - destruct (field_path site (py "processed_pdf") (processed_pdf q))
      as [p|] eqn:Hpath; simpl; [|discriminate].
    destruct (open_rb site p) as [[]|] eqn:Hopen; simpl; [|discriminate].
    intros [= <- <- <-].
    destruct (Hfield _ _ _ Hpath) as (file & Hfile & Hne & Hs).
    exists q, file. split; [reflexivity|]. split; [exact Hne|].
    split; [left; repeat split; assumption|].
    repeat split; try assumption.
    apply basename_from_no_slash, not_elem_of_nil.
  - destruct (decide (format = py "docx")) as [Hdocx|_]; simpl; [|discriminate].
    destruct (field_path site (py "docx_file") (docx_file q))
      as [p|] eqn:Hpath; simpl; [|discriminate].
    destruct (open_rb site p) as [[]|] eqn:Hopen; simpl; [|discriminate].
    intros [= <- <- <-].
    destruct (Hfield _ _ _ Hpath) as (file & Hfile & Hne & Hs).
    exists q, file. split; [reflexivity|]. split; [exact Hne|].
    split; [right; repeat split; assumption|].
    repeat split; try assumption.
    apply basename_from_no_slash, not_elem_of_nil.
Qed.

End DownloadView.

(** X20 run on the site with one quote. *)
Lemma download_get_file_witness :
  Views.download_get Examples.example_site 7 (py "pdf")
  = Views.Returned
      (Views.FileResponse (py "/srv/media/reports/pdf/quote_analysis_1.pdf")
         (py "application/pdf")
         (py "attachment; filename=" ++ [34%N] ++ py "quote_analysis_1.pdf"
          ++ [34%N]))
  /\ exists q file,
       Views.quotes Examples.example_site !! 7 = Some q
       /\ file <> []
       /\ Views.storage_path Examples.example_site file
          = Views.IoOk (py "/srv/media/reports/pdf/quote_analysis_1.pdf").
Proof.
  assert (Views.download_get Examples.example_site 7 (py "pdf")
          = Views.Returned
              (Views.FileResponse
                 (py "/srv/media/reports/pdf/quote_analysis_1.pdf")
                 (py "application/pdf")
                 (py "attachment; filename=" ++ [34%N]
                  ++ py "quote_analysis_1.pdf" ++ [34%N]))) as Hget
    by (vm_compute; reflexivity).
  split; [exact Hget|].
  destruct (download_get_file _ _ _ _ _ _ Hget)
    as (q & file & Hq & Hne & _ & Hs & _).
  exists q, file. repeat split; assumption.
Defined.

(** ** The PDF report *)

Section PdfAnyLibrary.

Import Extractor Analyzer Generator Examples.

Context {D : Type} (lib : PdfLib D) (fmt : Formatter) (analyze : Analyze).

Lemma draw_item_undrawable (item : QuoteItem) (d : D) (y : Z) :
  undrawable analyze item ->
  exists e, draw_item lib fmt analyze item d y = Failed e.
Proof.
  intros Hbad. unfold draw_item.
  destruct (page_break lib 700 d y) as [st|e]; simpl; [|eexists; reflexivity].
  destruct (py_mul (quantity item) (unit_price item)) as [total|e] eqn:Hmul;
    simpl; [|eexists; reflexivity].
  destruct (draw_lines lib (fst st) (snd st) _) as [st'|e]; simpl;
    [|eexists; reflexivity].
  destruct Hbad as [Hq|[Hp|[e He]]].
  - rewrite Hq in Hmul. discriminate.
  - rewrite Hp in Hmul. destruct (quantity item); discriminate.
  - unfold run_analysis. rewrite He. simpl. eexists. reflexivity.
Qed.

Lemma draw_items_undrawable (items : list QuoteItem) (d : D) (y : Z) :
  Exists (undrawable analyze) items ->
  exists e, draw_items lib fmt analyze items d y = Failed e.
Proof.
  intros Hex. revert d y.
  induction Hex as [item items Hbad | item items _ IH]; intros d y; simpl.
  - destruct (draw_item_undrawable item d y Hbad) as [e ->].
    eexists. reflexivity.
  - destruct (draw_item lib fmt analyze item d y) as [st|e]; simpl;
      [apply IH | eexists; reflexivity].
Qed.

(** X21. No report for an incomplete quote: when an item of the quote has
    no quantity or no unit price, or the price analysis of an item raises,
    [generate_pdf] returns [None], whatever the PDF library does. *)
Theorem generate_pdf_undrawable (quote_data : QuoteData) (pdf_path : pystr) :
  Exists (undrawable analyze) (items quote_data) ->
  generate_pdf lib fmt analyze quote_data pdf_path = None.
Proof.
  intros Hbad. unfold generate_pdf, generate_pdf_body.
  destruct (pdf_open lib) as [d0|]; simpl; [|reflexivity].
  destruct (new_page lib d0 612 792) as [d1|]; simpl; [|reflexivity].
  destruct (insert_text lib d1 _ _ _ _) as [d2|]; simpl; [|reflexivity].
  destruct (insert_text lib d2 _ _ _ _) as [d3|]; simpl; [|reflexivity].
  destruct (draw_lines lib d3 _ _) as [st|]; simpl; [|reflexivity].
  destruct (insert_text lib (fst st) _ _ _ _) as [d4|]; simpl; [|reflexivity].
  destruct (draw_items_undrawable (items quote_data) d4 (snd st + 20 + 30) Hbad)
    as [e ->].
  reflexivity.
Qed.

(** X22. No report at all with PyMuPDF: the first drawing call of
    [generate_pdf] passes [align=1] to [insert_text]; with a library whose
    [insert_text] raises on that keyword, as PyMuPDF's does, the exception
    is caught by the handler and [generate_pdf] returns [None] for every
    quote, every formatter and every analysis. *)
Theorem generate_pdf_align_rejected (quote_data : QuoteData)
    (pdf_path : pystr) :
  rejects_align lib ->
  generate_pdf lib fmt analyze quote_data pdf_path = None.
Proof.
  intros Halign. unfold generate_pdf, generate_pdf_body.
  destruct (pdf_open lib) as [d0|]; simpl; [|reflexivity].
  destruct (new_page lib d0 612 792) as [d1|]; simpl; [|reflexivity].
  destruct (Halign d1 (306, 50) (py "Quote Analysis Report") title_size 1)
    as [e ->].
  reflexivity.
Qed.

End PdfAnyLibrary.

(** X21 run on the recording library, X22 on the one without [align]. *)
Lemma generate_pdf_undrawable_witness :
  Exists (Generator.undrawable Examples.analyze_no_data)
         (Extractor.items Examples.quote_missing_price)
  /\ Generator.generate_pdf Generator.recorder Examples.example_formatter
       Examples.analyze_no_data Examples.quote_missing_price
       (py "media/reports/pdf/quote_analysis_1.pdf") = None.
Proof.
  assert (Exists (Generator.undrawable Examples.analyze_no_data)
                 (Extractor.items Examples.quote_missing_price)) as Hbad
    by (apply Exists_cons_hd; right; left; reflexivity).
  split; [exact Hbad|].
  exact (generate_pdf_undrawable Generator.recorder Examples.example_formatter
           Examples.analyze_no_data Examples.quote_missing_price
           (py "media/reports/pdf/quote_analysis_1.pdf") Hbad).
Defined.

Lemma generate_pdf_align_rejected_witness :
  Generator.rejects_align Generator.recorder_no_align
  /\ Generator.generate_pdf Generator.recorder_no_align
       Examples.example_formatter Examples.analyze_no_data
       Examples.quote_complete (py "media/reports/pdf/quote_analysis_1.pdf")
     = None.
Proof.
  assert (Generator.rejects_align Generator.recorder_no_align) as Halign
    by (intros d point text fontsize align; eexists; reflexivity).
  split; [exact Halign|].
  exact (generate_pdf_align_rejected Generator.recorder_no_align
           Examples.example_formatter Examples.analyze_no_data
           Examples.quote_complete
           (py "media/reports/pdf/quote_analysis_1.pdf") Halign).
Defined.
